(** * ElectroMart backend: order settlement and loyalty accounting

    A shallow embedding of [backend/server.py]: the pydantic models, the
    loyalty helpers and the routes [register_user], [create_order] and
    [get_recommendations], together with the MongoDB collections they
    read and write.

    Modelling conventions.
    - Python [int] is [Z]; Python [float] (prices, totals, ratings) is an
      exact rational [Q], compared with [==]; rounding of binary floating
      point is not modelled.
    - A MongoDB collection is the list of its documents in natural
      (insertion) order; [find_one] and [update_one] act on the first
      document matching the query.
    - An [async] route is a resumption [Prog]: every [await db...] is one
      atomic step on the database, the points in between are where the
      event loop may switch to another request.  [run] executes a route
      without interruption; [run2] interleaves two routes under a schedule.
    - [uuid.uuid4()], [bcrypt] and [jwt] are inputs of the routes that use
      them; [created_at] timestamps and the [_id] field are left out. *)

From Stdlib Require Import QArith Qround Qminmax ZArith String List Bool Lia Lqa.
From Stdlib Require Import Sorted.
Import ListNotations.

Open Scope string_scope.
Open Scope list_scope.
Open Scope Z_scope.

(** ** Python arithmetic on the modelled numbers *)

Definition Qltb (a b : Q) : bool := negb (Qle_bool b a).

(** [max(a, b)]: the first argument unless the second is strictly larger. *)
Definition py_max (a b : Q) : Q := if Qltb a b then b else a.

(** [min(a, b)] on [int]. *)
Definition py_min (a b : Z) : Z := if b <? a then b else a.

(** [a // b] on floats: the floor of the quotient, still a float. *)
Definition py_floordiv (a b : Q) : Q := inject_Z (Qfloor (a / b)).

(** [int(x)]: truncation towards zero. *)
Definition py_int (x : Q) : Z := Z.quot (Qnum x) (QDen x).

(** ** Models *)

Inductive UserRole : Type := USER | ADMIN.

Inductive LoyaltyTier : Type := BRONZE | SILVER | GOLD | PLATINUM.

Module Product.
Record t : Type := mk {
  id : string;
  name : string;
  description : string;
  price : Q;
  brand : string;
  category : string;
  image_url : string;
  stock_quantity : Z;
  warranty_months : Z;
  rating : Q;
  review_count : Z;
  is_active : bool
}.
End Product.

Module User.
Record t : Type := mk {
  id : string;
  email : string;
  name : string;
  phone : option string;
  address : option string;
  role : UserRole;
  loyalty_points : Z;
  loyalty_tier : LoyaltyTier;
  total_spent : Q;
  is_active : bool
}.

(** [User(id=.., email=.., name=.., phone=.., loyalty_points=..)], the
    other fields at their defaults. *)
Definition create (id email name : string) (phone : option string)
    (loyalty_points : Z) : t :=
  {| id := id; email := email; name := name; phone := phone;
     address := None; role := USER; loyalty_points := loyalty_points;
     loyalty_tier := BRONZE; total_spent := 0%Q; is_active := true |}.
End User.

(** A document of [db.users]: [user.dict()] plus the ["password"] key. *)
Module UserDoc.
Record t : Type := mk {
  user : User.t;
  password : string
}.
End UserDoc.

Module CartItem.
Record t : Type := mk {
  product_id : string;
  quantity : Z
}.
End CartItem.

(** The dict appended to [order_items]. *)
Module OrderItem.
Record t : Type := mk {
  product_id : string;
  name : string;
  price : Q;
  quantity : Z;
  total : Q
}.
End OrderItem.

Module Order.
Record t : Type := mk {
  id : string;
  user_id : string;
  items : list OrderItem.t;
  total_amount : Q;
  discount_amount : Q;
  loyalty_points_used : Z;
  loyalty_points_earned : Z;
  payment_method : string;
  payment_status : string;
  order_status : string;
  shipping_address : string
}.

(** [Order(id=.., user_id=.., items=.., total_amount=.., ...)] with
    [payment_method], [payment_status] and [order_status] defaulted. *)
Definition create (id user_id : string) (items : list OrderItem.t)
    (total_amount discount_amount : Q)
    (loyalty_points_used loyalty_points_earned : Z)
    (shipping_address : string) : t :=
  {| id := id; user_id := user_id; items := items;
     total_amount := total_amount; discount_amount := discount_amount;
     loyalty_points_used := loyalty_points_used;
     loyalty_points_earned := loyalty_points_earned;
     payment_method := "UPI"; payment_status := "pending";
     order_status := "placed"; shipping_address := shipping_address |}.
End Order.

Module UserCreate.
Record t : Type := mk {
  email : string;
  name : string;
  password : string;
  phone : option string
}.
End UserCreate.

Module OrderCreate.
Record t : Type := mk {
  items : list CartItem.t;
  shipping_address : string;
  loyalty_points_to_use : Z
}.
End OrderCreate.

(** ** Responses of the routes *)

Module RegisterResponse.
Record t : Type := mk {
  message : string;
  token : string;
  user_id : string;
  user_email : string;
  user_name : string;
  user_loyalty_points : Z;
  user_loyalty_tier : LoyaltyTier
}.
End RegisterResponse.

Module OrderResponse.
Record t : Type := mk {
  message : string;
  order_id : string;
  total_amount : Q;
  loyalty_points_earned : Z;
  new_loyalty_points : Z;
  new_tier : LoyaltyTier
}.
End OrderResponse.

(** ** Exceptions *)

Inductive Exn : Type :=
| HTTPException (status_code : Z) (detail : string)
| ValueError (msg : string).

(** ** The database *)

Record DB : Type := mkDB {
  users : list UserDoc.t;
  products : list Product.t;
  orders : list Order.t
}.

Section Collections.
Context {D : Type}.

Definition find_one (q : D -> bool) (c : list D) : option D := find q c.

Definition insert_one (d : D) (c : list D) : list D := c ++ [d].

Fixpoint update_one (q : D -> bool) (f : D -> D) (c : list D) : list D :=
  match c with
  | [] => []
  | d :: c' => if q d then f d :: c' else d :: update_one q f c'
  end.

(** [cursor.limit(n)]: no limit for 0, [|n|] documents otherwise. *)
Definition cursor_limit (n : Z) (c : list D) : list D :=
  if n =? 0 then c else firstn (Z.abs_nat n) c.

(** [cursor.to_list(length)], for a [length] that passed the
    non-negativity check. *)
Definition to_list (length : Z) (c : list D) : list D :=
  firstn (Z.to_nat length) c.
End Collections.

(** [cursor.sort("rating", -1)]: insertion sort, highest rating first,
    documents of equal rating in natural order. *)
Fixpoint insert_by_rating (p : Product.t) (c : list Product.t)
    : list Product.t :=
  match c with
  | [] => [p]
  | p' :: c' =>
      if Qltb (Product.rating p) (Product.rating p')
      then p' :: insert_by_rating p c'
      else p :: p' :: c'
  end.

Definition sort_rating_desc (c : list Product.t) : list Product.t :=
  fold_right insert_by_rating [] c.

Definition set_loyalty (pts : Z) (spent : Q) (tier : LoyaltyTier)
    (d : UserDoc.t) : UserDoc.t :=
  let u := UserDoc.user d in
  {| UserDoc.user :=
       {| User.id := User.id u; User.email := User.email u;
          User.name := User.name u; User.phone := User.phone u;
          User.address := User.address u; User.role := User.role u;
          User.loyalty_points := pts; User.loyalty_tier := tier;
          User.total_spent := spent; User.is_active := User.is_active u |};
     UserDoc.password := UserDoc.password d |}.

Definition inc_stock (delta : Z) (p : Product.t) : Product.t :=
  {| Product.id := Product.id p; Product.name := Product.name p;
     Product.description := Product.description p;
     Product.price := Product.price p; Product.brand := Product.brand p;
     Product.category := Product.category p;
     Product.image_url := Product.image_url p;
     Product.stock_quantity := Product.stock_quantity p + delta;
     Product.warranty_months := Product.warranty_months p;
     Product.rating := Product.rating p;
     Product.review_count := Product.review_count p;
     Product.is_active := Product.is_active p |}.

(** The queries used by the routes. *)
Definition user_has_id (id : string) (d : UserDoc.t) : bool :=
  String.eqb (User.id (UserDoc.user d)) id.

Definition user_has_email (email : string) (d : UserDoc.t) : bool :=
  String.eqb (User.email (UserDoc.user d)) email.

Definition product_has_id (id : string) (p : Product.t) : bool :=
  String.eqb (Product.id p) id.

Definition product_active_with_id (id : string) (p : Product.t) : bool :=
  String.eqb (Product.id p) id && Product.is_active p.

Definition product_active_in (cats : list string) (p : Product.t) : bool :=
  Product.is_active p
  && existsb (String.eqb (Product.category p)) cats.

Definition order_of_user (uid : string) (o : Order.t) : bool :=
  String.eqb (Order.user_id o) uid.

(** ** Database operations: one per awaited call in the source *)

Inductive db_op : Type :=
| UsersFindOneById (id : string)
    (* db.users.find_one({"id": id}) *)
| UsersFindOneByEmail (email : string)
    (* db.users.find_one({"email": email}) *)
| UsersInsertOne (d : UserDoc.t)
    (* db.users.insert_one(d) *)
| UsersSetLoyalty (id : string) (pts : Z) (spent : Q) (tier : LoyaltyTier)
    (* db.users.update_one({"id": id}, {"$set": {...}}) *)
| ProductsFindOneActive (id : string)
    (* db.products.find_one({"id": id, "is_active": True}) *)
| ProductsFindOneById (id : string)
    (* db.products.find_one({"id": id}) *)
| ProductsIncStock (id : string) (delta : Z)
    (* db.products.update_one({"id": id}, {"$inc": {"stock_quantity": delta}}) *)
| ProductsFindActiveByRating (limit : Z)
    (* db.products.find({"is_active": True}).sort("rating", -1)
         .limit(limit).to_list(limit) *)
| ProductsFindActiveInByRating (cats : list string) (limit : Z)
    (* the same with "category": {"$in": cats} *)
| OrdersInsertOne (o : Order.t)
    (* db.orders.insert_one(o) *)
| OrdersFindByUser (uid : string) (length : Z).
    (* db.orders.find({"user_id": uid}).to_list(length) *)

Definition db_res (op : db_op) : Type :=
  match op with
  | UsersFindOneById _ | UsersFindOneByEmail _ => option UserDoc.t
  | ProductsFindOneActive _ | ProductsFindOneById _ => option Product.t
  | ProductsFindActiveByRating _ | ProductsFindActiveInByRating _ _ =>
      list Product.t
  | OrdersFindByUser _ _ => list Order.t
  | UsersInsertOne _ | UsersSetLoyalty _ _ _ _ | ProductsIncStock _ _
  | OrdersInsertOne _ => unit
  end.

Definition exec (op : db_op) (db : DB) : DB * db_res op :=
  match op return DB * db_res op with
  | UsersFindOneById id => (db, find_one (user_has_id id) (users db))
  | UsersFindOneByEmail e => (db, find_one (user_has_email e) (users db))
  | UsersInsertOne d =>
      (mkDB (insert_one d (users db)) (products db) (orders db), tt)
  | UsersSetLoyalty id pts spent tier =>
      (mkDB (update_one (user_has_id id) (set_loyalty pts spent tier)
               (users db))
            (products db) (orders db), tt)
  | ProductsFindOneActive id =>
      (db, find_one (product_active_with_id id) (products db))
  | ProductsFindOneById id =>
      (db, find_one (product_has_id id) (products db))
  | ProductsIncStock id delta =>
      (mkDB (users db)
            (update_one (product_has_id id) (inc_stock delta) (products db))
            (orders db), tt)
  | ProductsFindActiveByRating limit =>
      (db, to_list limit (cursor_limit limit
             (sort_rating_desc (filter Product.is_active (products db)))))
  | ProductsFindActiveInByRating cats limit =>
      (db, to_list limit (cursor_limit limit
             (sort_rating_desc (filter (product_active_in cats)
                                  (products db)))))
  | OrdersInsertOne o =>
      (mkDB (users db) (products db) (insert_one o (orders db)), tt)
  | OrdersFindByUser uid length =>
      (db, to_list length (filter (order_of_user uid) (orders db)))
  end.

(** ** Routes as resumptions *)

Inductive Prog (A : Type) : Type :=
| Ret (a : A)
| Raise (e : Exn)
| Await (op : db_op) (k : db_res op -> Prog A).

Arguments Ret {A} a.
Arguments Raise {A} e.
Arguments Await {A} op k.

Fixpoint bind {A B : Type} (p : Prog A) (f : A -> Prog B) : Prog B :=
  match p with
  | Ret a => f a
  | Raise e => Raise e
  | Await op k => Await op (fun r => bind (k r) f)
  end.

Definition await (op : db_op) : Prog (db_res op) := Await op Ret.

Notation "x <- p ;; q" := (bind p (fun x => q))
  (at level 61, p at next level, right associativity).
Notation "p ;;; q" := (bind p (fun _ => q))
  (at level 61, right associativity).

(** Uninterrupted execution of a route on a database. *)
Fixpoint run {A : Type} (p : Prog A) (db : DB) : DB * (Exn + A) :=
  match p with
  | Ret a => (db, inr a)
  | Raise e => (db, inl e)
  | Await op k => let '(db', r) := exec op db in run (k r) db'
  end.

(** One atomic step of a route: the awaited operation at its head. *)
Definition step {A : Type} (p : Prog A) (db : DB) : DB * Prog A :=
  match p with
  | Await op k => let '(db', r) := exec op db in (db', k r)
  | _ => (db, p)
  end.

(** Two requests in flight.  The schedule says which one the event loop
    resumes next ([true]: the first); a finished request is skipped, and
    when the schedule is exhausted the first request runs to completion,
    then the second. *)
Fixpoint run2 {A B : Type} (sched : list bool) (p : Prog A) (q : Prog B)
    (db : DB) : DB * (Exn + A) * (Exn + B) :=
  match sched with
  | [] =>
      let '(db1, ra) := run p db in
      let '(db2, rb) := run q db1 in
      (db2, ra, rb)
  | true :: sched' =>
      let '(db', p') := step p db in run2 sched' p' q db'
  | false :: sched' =>
      let '(db', q') := step q db in run2 sched' p q' db'
  end.

(** ** Helper functions *)

Definition calculate_loyalty_tier (total_spent : Q) : LoyaltyTier :=
  if Qle_bool 50000 total_spent then PLATINUM
  else if Qle_bool 25000 total_spent then GOLD
  else if Qle_bool 10000 total_spent then SILVER
  else BRONZE.

Definition calculate_loyalty_points (amount : Q) : Z :=
  py_int (py_floordiv amount 100).

(** The outcome of [jwt.decode] on the bearer token: [PyJWTError], or a
    payload and its ["user_id"] entry if any. *)
Inductive jwt_decoded : Type :=
| PyJWTError
| Payload (user_id : option string).

Definition get_current_user (credentials : jwt_decoded) : Prog User.t :=
  match credentials with
  | PyJWTError =>
      Raise (HTTPException 401 "Invalid authentication credentials")
  | Payload None =>
      Raise (HTTPException 401 "Invalid authentication credentials")
  | Payload (Some user_id) =>
      user <- await (UsersFindOneById user_id) ;;
      match user with
      | None => Raise (HTTPException 401 "User not found")
      | Some user => Ret (UserDoc.user user)
      end
  end.

(** ** POST /auth/register *)

Section Register.
(** [bcrypt] hashing (salt included) and JWT signing of the claims
    [user_id], [email]. *)
Variable hash_password : string -> string.
Variable create_jwt_token : string -> string -> string.

Definition register_user (new_id : string) (user_data : UserCreate.t)
    : Prog RegisterResponse.t :=
  existing_user <- await (UsersFindOneByEmail (UserCreate.email user_data)) ;;
  match existing_user with
  | Some _ => Raise (HTTPException 400 "User already exists")
  | None =>
      let hashed_password := hash_password (UserCreate.password user_data) in
      let user :=
        User.create new_id (UserCreate.email user_data)
          (UserCreate.name user_data) (UserCreate.phone user_data)
          100 (* Welcome bonus *) in
      let user_dict := UserDoc.mk user hashed_password in
      await (UsersInsertOne user_dict) ;;;
      let token := create_jwt_token (User.id user) (User.email user) in
      Ret {| RegisterResponse.message := "User created successfully";
             RegisterResponse.token := token;
             RegisterResponse.user_id := User.id user;
             RegisterResponse.user_email := User.email user;
             RegisterResponse.user_name := User.name user;
             RegisterResponse.user_loyalty_points := User.loyalty_points user;
             RegisterResponse.user_loyalty_tier := User.loyalty_tier user |}
  end.
End Register.

(** ** POST /orders *)

(** The first loop of [create_order]: look every cart item up, check its
    stock, accumulate [total_amount] and [order_items]. *)
Fixpoint price_items (items : list CartItem.t) (total_amount : Q)
    (order_items : list OrderItem.t) : Prog (Q * list OrderItem.t) :=
  match items with
  | [] => Ret (total_amount, order_items)
  | item :: items' =>
      product <- await (ProductsFindOneActive (CartItem.product_id item)) ;;
      match product with
      | None =>
          Raise (HTTPException 404
                   ("Product " ++ CartItem.product_id item ++ " not found"))
      | Some product =>
          if Product.stock_quantity product <? CartItem.quantity item then
            Raise (HTTPException 400
                     ("Insufficient stock for " ++ Product.name product))
          else
            let item_total :=
              (Product.price product * inject_Z (CartItem.quantity item))%Q in
            price_items items' (total_amount + item_total)%Q
              (order_items ++
               [ {| OrderItem.product_id := CartItem.product_id item;
                    OrderItem.name := Product.name product;
                    OrderItem.price := Product.price product;
                    OrderItem.quantity := CartItem.quantity item;
                    OrderItem.total := item_total |} ])
      end
  end.

(** The last loop of [create_order]: one [$inc] of the stock per item. *)
Fixpoint update_stock (items : list CartItem.t) : Prog unit :=
  match items with
  | [] => Ret tt
  | item :: items' =>
      await (ProductsIncStock (CartItem.product_id item)
               (- CartItem.quantity item)) ;;;
      update_stock items'
  end.

(** The loyalty discount: [discount_amount] and the discounted
    [total_amount]. *)
Definition apply_discount (loyalty_points_used : Z) (total_amount : Q)
    : Q * Q :=
  if 0 <? loyalty_points_used then
    (* 1 point = 1 rupee discount *)
    let discount_amount := inject_Z loyalty_points_used in
    (discount_amount, py_max 0 (total_amount - discount_amount))
  else (0%Q, total_amount).

Definition create_order (new_id : string) (order_data : OrderCreate.t)
    (current_user : User.t) : Prog OrderResponse.t :=
  (* Calculate order total *)
  priced <- price_items (OrderCreate.items order_data) 0 [] ;;
  let '(total_amount, order_items) := priced in
  (* Apply loyalty points discount *)
  let loyalty_points_used :=
    py_min (OrderCreate.loyalty_points_to_use order_data)
           (User.loyalty_points current_user) in
  let '(discount_amount, total_amount) :=
    apply_discount loyalty_points_used total_amount in
  (* Calculate loyalty points earned *)
  let loyalty_points_earned := calculate_loyalty_points total_amount in
  (* Create order *)
  let order :=
    Order.create new_id (User.id current_user) order_items total_amount
      discount_amount loyalty_points_used loyalty_points_earned
      (OrderCreate.shipping_address order_data) in
  await (OrdersInsertOne order) ;;;
  (* Update user loyalty points and tier *)
  let new_loyalty_points :=
    User.loyalty_points current_user - loyalty_points_used
    + loyalty_points_earned in
  let new_total_spent := (User.total_spent current_user + total_amount)%Q in
  let new_tier := calculate_loyalty_tier new_total_spent in
  await (UsersSetLoyalty (User.id current_user) new_loyalty_points
           new_total_spent new_tier) ;;;
  (* Update product stock *)
  update_stock (OrderCreate.items order_data) ;;;
  Ret {| OrderResponse.message := "Order created successfully";
         OrderResponse.order_id := Order.id order;
         OrderResponse.total_amount := total_amount;
         OrderResponse.loyalty_points_earned := loyalty_points_earned;
         OrderResponse.new_loyalty_points := new_loyalty_points;
         OrderResponse.new_tier := new_tier |}.

(** The route with its dependency [Depends(get_current_user)]. *)
Definition post_orders (credentials : jwt_decoded) (new_id : string)
    (order_data : OrderCreate.t) : Prog OrderResponse.t :=
  current_user <- get_current_user credentials ;;
  create_order new_id order_data current_user.

(** ** GET /recommendations *)

(** [purchased_categories.add(c)] on a set kept as a duplicate-free list. *)
Definition set_add (c : string) (s : list string) : list string :=
  if existsb (String.eqb c) s then s else s ++ [c].

Fixpoint item_categories (items : list OrderItem.t)
    (purchased_categories : list string) : Prog (list string) :=
  match items with
  | [] => Ret purchased_categories
  | item :: items' =>
      product <- await (ProductsFindOneById (OrderItem.product_id item)) ;;
      match product with
      | Some product =>
          item_categories items'
            (set_add (Product.category product) purchased_categories)
      | None => item_categories items' purchased_categories
      end
  end.

Fixpoint order_categories (orders : list Order.t)
    (purchased_categories : list string) : Prog (list string) :=
  match orders with
  | [] => Ret purchased_categories
  | order :: orders' =>
      cats <- item_categories (Order.items order) purchased_categories ;;
      order_categories orders' cats
  end.

(** [find(q).sort("rating", -1).limit(limit).to_list(limit)]: [to_list]
    rejects a negative length before anything is sent. *)
Definition top_rated (op : Z -> db_op) (limit : Z)
    : Prog (db_res (op limit)) :=
  if limit <? 0 then Raise (ValueError "length must be non-negative")
  else await (op limit).

Definition default_limit : Z := 6.

Definition get_recommendations (current_user : User.t) (limit : option Z)
    : Prog (list Product.t) :=
  let limit := match limit with Some l => l | None => default_limit end in
  (* Simple recommendation based on user's order history *)
  orders <- await (OrdersFindByUser (User.id current_user) 50) ;;
  match orders with
  | [] =>
      (* New user - recommend popular products *)
      top_rated ProductsFindActiveByRating limit
  | _ :: _ =>
      (* Get categories from user's purchase history *)
      purchased_categories <- order_categories orders [] ;;
      match purchased_categories with
      | _ :: _ =>
          (* Recommend products from same categories *)
          top_rated (ProductsFindActiveInByRating purchased_categories) limit
      | [] => top_rated ProductsFindActiveByRating limit
      end
  end.

(** ** The other routes

    The routes below are not interleaved with anything in what follows;
    those whose database calls are not among [db_op] are given directly by
    their uninterrupted execution, a [Route]. *)

Definition Route (A : Type) : Type := DB -> DB * (Exn + A).

Definition route_bind {A B : Type} (r : Route A) (f : A -> Route B)
    : Route B :=
  fun db =>
    match r db with
    | (db1, inr a) => f a db1
    | (db1, inl e) => (db1, inl e)
    end.

Module UserLogin.
Record t : Type := mk {
  email : string;
  password : string
}.
End UserLogin.

Module ProductCreate.
Record t : Type := mk {
  name : string;
  description : string;
  price : Q;
  brand : string;
  category : string;
  image_url : string;
  stock_quantity : Z;
  warranty_months : Z
}.
End ProductCreate.

(** The [Product] built from [product_data.dict()]: a fresh id, no rating
    yet, active. *)
Definition Product_of_create (new_id : string) (product_data : ProductCreate.t)
    : Product.t :=
  {| Product.id := new_id;
     Product.name := ProductCreate.name product_data;
     Product.description := ProductCreate.description product_data;
     Product.price := ProductCreate.price product_data;
     Product.brand := ProductCreate.brand product_data;
     Product.category := ProductCreate.category product_data;
     Product.image_url := ProductCreate.image_url product_data;
     Product.stock_quantity := ProductCreate.stock_quantity product_data;
     Product.warranty_months := ProductCreate.warranty_months product_data;
     Product.rating := 0%Q;
     Product.review_count := 0;
     Product.is_active := true |}.

(** *** POST /auth/login *)

Section Login.
(** [bcrypt.checkpw] and JWT signing of the claims [user_id], [email]
    (the expiry stamped on the token is not modelled). *)
Variable verify_password : string -> string -> bool.
Variable create_jwt_token : string -> string -> string.

Definition login_user (login_data : UserLogin.t) : Prog RegisterResponse.t :=
  user <- await (UsersFindOneByEmail (UserLogin.email login_data)) ;;
  match user with
  | None => Raise (HTTPException 401 "Invalid credentials")
  | Some user =>
      if negb (verify_password (UserLogin.password login_data)
                 (UserDoc.password user))
      then Raise (HTTPException 401 "Invalid credentials")
      else
        let u := UserDoc.user user in
        (* Create JWT token *)
        let token := create_jwt_token (User.id u) (User.email u) in
        Ret {| RegisterResponse.message := "Login successful";
               RegisterResponse.token := token;
               RegisterResponse.user_id := User.id u;
               RegisterResponse.user_email := User.email u;
               RegisterResponse.user_name := User.name u;
               RegisterResponse.user_loyalty_points := User.loyalty_points u;
               RegisterResponse.user_loyalty_tier := User.loyalty_tier u |}
  end.
End Login.

(** *** GET /products, GET /products/{product_id}, POST /products *)

(** The query of [get_products]: [{"is_active": True}], with
    ["category"] added when the parameter is given and not empty. *)
Definition products_query (category : option string) (p : Product.t) : bool :=
  Product.is_active p
  && match category with
     | None => true
     | Some c => if String.eqb c "" then true
                 else String.eqb (Product.category p) c
     end.

Definition get_products (category : option string) (limit : option Z)
    : Route (list Product.t) :=
  fun db =>
    let limit := match limit with Some l => l | None => 20 end in
    if limit <? 0 then (db, inl (ValueError "length must be non-negative"))
    else
      (db, inr (to_list limit
                  (cursor_limit limit
                     (filter (products_query category) (products db))))).

Definition get_product (product_id : string) : Prog Product.t :=
  product <- await (ProductsFindOneActive product_id) ;;
  match product with
  | None => Raise (HTTPException 404 "Product not found")
  | Some product => Ret product
  end.

Definition create_product (credentials : jwt_decoded) (new_id : string)
    (product_data : ProductCreate.t) : Route (string * string) :=
  route_bind (run (get_current_user credentials)) (fun current_user db =>
    match User.role current_user with
    | ADMIN =>
        let product := Product_of_create new_id product_data in
        (mkDB (users db) (insert_one product (products db)) (orders db),
         inr ("Product created successfully", Product.id product))
    | USER => (db, inl (HTTPException 403 "Admin access required"))
    end).

(** *** GET /loyalty/status *)

Module Benefits.
Record t : Type := mk {
  discount : string;
  free_shipping : bool;
  priority_support : option bool;
  exclusive_access : option bool
}.
End Benefits.

Module LoyaltyStatus.
Record t : Type := mk {
  points : Z;
  tier : LoyaltyTier;
  total_spent : Q;
  benefits : list (LoyaltyTier * Benefits.t)
}.
End LoyaltyStatus.

Definition get_loyalty_status (current_user : User.t) : LoyaltyStatus.t :=
  {| LoyaltyStatus.points := User.loyalty_points current_user;
     LoyaltyStatus.tier := User.loyalty_tier current_user;
     LoyaltyStatus.total_spent := User.total_spent current_user;
     LoyaltyStatus.benefits :=
       [ (BRONZE, Benefits.mk "5%" false None None);
         (SILVER, Benefits.mk "10%" true None None);
         (GOLD, Benefits.mk "15%" true (Some true) None);
         (PLATINUM, Benefits.mk "20%" true (Some true) (Some true)) ] |}.

(** The route with its dependency [Depends(get_current_user)]. *)
Definition loyalty_status (credentials : jwt_decoded) : Prog LoyaltyStatus.t :=
  current_user <- get_current_user credentials ;;
  Ret (get_loyalty_status current_user).

(** *** POST /payment/simulate *)

Module PaymentResponse.
Record t : Type := mk {
  status : string;
  message : string
}.
End PaymentResponse.

Definition order_has_id (id : string) (o : Order.t) : bool :=
  String.eqb (Order.id o) id.

(** [{"$set": {"payment_status": "completed", "order_status": "confirmed"}}] *)
Definition set_paid (o : Order.t) : Order.t :=
  {| Order.id := Order.id o; Order.user_id := Order.user_id o;
     Order.items := Order.items o;
     Order.total_amount := Order.total_amount o;
     Order.discount_amount := Order.discount_amount o;
     Order.loyalty_points_used := Order.loyalty_points_used o;
     Order.loyalty_points_earned := Order.loyalty_points_earned o;
     Order.payment_method := Order.payment_method o;
     Order.payment_status := "completed";
     Order.order_status := "confirmed";
     Order.shipping_address := Order.shipping_address o |}.

(** [random_draw] is the value of [random.random()]. *)
Definition simulate_payment (random_draw : Q) (order_id payment_method : string)
    : Route PaymentResponse.t :=
  fun db =>
    match find_one (order_has_id order_id) (orders db) with
    | None => (db, inl (HTTPException 404 "Order not found"))
    | Some _ =>
        (* Simulate payment processing *)
        let success_rate := 0.95%Q in
        if Qltb random_draw success_rate then
          (mkDB (users db) (products db)
             (update_one (order_has_id order_id) set_paid (orders db)),
           inr (PaymentResponse.mk "success"
                  ("Payment via " ++ payment_method ++ " successful")))
        else
          (db, inr (PaymentResponse.mk "failed"
                      "Payment failed, please try again"))
    end.

(** *** Startup seeding and GET /categories *)

Module Category.
Record t : Type := mk {
  id : string;
  name : string;
  description : string;
  image_url : option string
}.
End Category.

(** The database together with [db.categories], which only the startup
    hook and GET /categories use. *)
Record Store : Type := mkStore {
  store_db : DB;
  categories : list Category.t
}.

(** An entry of [categories_data]. *)
Module CategoryData.
Record t : Type := mk {
  name : string;
  description : string;
  image_url : string
}.
End CategoryData.




Section Seeding.
Context {Data Doc : Type}.
(** The query [{"name": data["name"]}] and the document built from an
    entry, under the id [uuid4()] gives it. *)
Variable has_name : Data -> Doc -> bool.
Variable create : string -> Data -> Doc.

End Seeding.





Definition get_categories (s : Store) : list Category.t :=
  to_list 100 (categories s).

(** * Vocabulary of the properties *)

Definition tier_rank (t : LoyaltyTier) : nat :=
  match t with
  | BRONZE => 0
  | SILVER => 1
  | GOLD => 2
  | PLATINUM => 3
  end.

(** The sum of the line totals of an order. *)
Definition sum_totals (lines : list OrderItem.t) : Q :=
  fold_right (fun line acc => (OrderItem.total line + acc)%Q) 0%Q lines.

(** The line priced for a cart item from the product found for it. *)
Definition line_of (product : Product.t) (item : CartItem.t) : OrderItem.t :=
  {| OrderItem.product_id := CartItem.product_id item;
     OrderItem.name := Product.name product;
     OrderItem.price := Product.price product;
     OrderItem.quantity := CartItem.quantity item;
     OrderItem.total :=
       (Product.price product * inject_Z (CartItem.quantity item))%Q |}.

Definition find_active (db : DB) (item : CartItem.t) : option Product.t :=
  find_one (product_active_with_id (CartItem.product_id item)) (products db).

(** A cart item passes the checks of the first loop and yields [line]. *)
Definition item_ok (db : DB) (item : CartItem.t) (line : OrderItem.t) : Prop :=
  exists product,
    find_active db item = Some product /\
    CartItem.quantity item <= Product.stock_quantity product /\
    line = line_of product item.

(** A cart item is rejected by the first loop with exception [e]. *)
Definition item_error (db : DB) (item : CartItem.t) (e : Exn) : Prop :=
  (find_active db item = None /\
   e = HTTPException 404
         ("Product " ++ CartItem.product_id item ++ " not found"))
  \/
  (exists product,
      find_active db item = Some product /\
      Product.stock_quantity product < CartItem.quantity item /\
      e = HTTPException 400
            ("Insufficient stock for " ++ Product.name product)).

(** The item does not resolve to an active product, or asks for more than
    the stock of that product. *)
Definition offending (db : DB) (item : CartItem.t) : Prop :=
  match find_active db item with
  | None => True
  | Some product => Product.stock_quantity product < CartItem.quantity item
  end.

(** The stock left by the last loop. *)
Definition decrement_all (items : list CartItem.t) (ps : list Product.t)
    : list Product.t :=
  fold_left
    (fun ps item =>
       update_one (product_has_id (CartItem.product_id item))
                  (inc_stock (- CartItem.quantity item)) ps)
    items ps.

(** What [create_order] computes once the cart is priced at [subtotal]. *)
Record Settlement : Type := mkSettlement {
  s_order : Order.t;
  s_new_loyalty_points : Z;
  s_new_total_spent : Q;
  s_new_tier : LoyaltyTier
}.

Definition settlement (new_id : string) (order_data : OrderCreate.t)
    (current_user : User.t) (subtotal : Q) (order_items : list OrderItem.t)
    : Settlement :=
  let used := py_min (OrderCreate.loyalty_points_to_use order_data)
                     (User.loyalty_points current_user) in
  let discount := fst (apply_discount used subtotal) in
  let total := snd (apply_discount used subtotal) in
  let earned := calculate_loyalty_points total in
  let spent := (User.total_spent current_user + total)%Q in
  {| s_order :=
       Order.create new_id (User.id current_user) order_items total discount
         used earned (OrderCreate.shipping_address order_data);
     s_new_loyalty_points := User.loyalty_points current_user - used + earned;
     s_new_total_spent := spent;
     s_new_tier := calculate_loyalty_tier spent |}.

Definition settlement_response (s : Settlement) : OrderResponse.t :=
  {| OrderResponse.message := "Order created successfully";
     OrderResponse.order_id := Order.id (s_order s);
     OrderResponse.total_amount := Order.total_amount (s_order s);
     OrderResponse.loyalty_points_earned :=
       Order.loyalty_points_earned (s_order s);
     OrderResponse.new_loyalty_points := s_new_loyalty_points s;
     OrderResponse.new_tier := s_new_tier s |}.

Definition settled_db (uid : string) (items : list CartItem.t)
    (s : Settlement) (db : DB) : DB :=
  mkDB (update_one (user_has_id uid)
          (set_loyalty (s_new_loyalty_points s) (s_new_total_spent s)
             (s_new_tier s))
          (users db))
       (decrement_all items (products db))
       (insert_one (s_order s) (orders db)).


(** The quantity a cart orders of one product, over all its items. *)
Definition ordered_quantity (pid : string) (items : list CartItem.t) : Z :=
  fold_right
    (fun item acc =>
       if String.eqb (CartItem.product_id item) pid
       then CartItem.quantity item + acc else acc)
    0 items.

(** Highest rating first. *)
Definition by_rating_desc (a b : Product.t) : Prop :=
  (Product.rating b <= Product.rating a)%Q.

(** The stock of the first document with a product id. *)
Definition stock_of (pid : string) (db : DB) : option Z :=
  option_map Product.stock_quantity
    (find_one (product_has_id pid) (products db)).

(** ** Fixtures for the concrete checks *)

Definition a_product (id name category : string) (price : Q) (stock : Z)
    (rating : Q) (active : bool) : Product.t :=
  {| Product.id := id; Product.name := name; Product.description := "";
     Product.price := price; Product.brand := ""; Product.category := category;
     Product.image_url := ""; Product.stock_quantity := stock;
     Product.warranty_months := 12; Product.rating := rating;
     Product.review_count := 0; Product.is_active := active |}.

Definition a_user (id email : string) (points : Z) : UserDoc.t :=
  UserDoc.mk (User.create id email "Test User" None points) "hash".

Definition power_bank : Product.t :=
  a_product "p1" "Anker PowerCore" "Chargers" 1000 5 4.5 true.

Definition shop (points : Z) : DB :=
  mkDB [a_user "u1" "u1@test.com" points] [power_bank] [].

Definition one_item_cart (quantity points_to_use : Z) : OrderCreate.t :=
  OrderCreate.mk [CartItem.mk "p1" quantity] "1 Main Street" points_to_use.

Definition buyer (points : Z) : User.t :=
  UserDoc.user (a_user "u1" "u1@test.com" points).

(** A catalog of four products, one of them withdrawn. *)
Definition catalog : DB :=
  mkDB [a_user "u1" "u1@test.com" 100]
       [a_product "p1" "Power bank" "Chargers" 2999 100 4.1 true;
        a_product "p2" "Headphones" "Headphones" 29990 30 4.8 true;
        a_product "p3" "Old phone" "Smartphones" 9999 0 4.9 false;
        a_product "p4" "Watch" "Smartwatches" 41900 25 4.5 true]
       [].

(** Two customers and the last unit of a product. *)
Definition last_unit : DB :=
  mkDB [a_user "u1" "u1@test.com" 0; a_user "u2" "u2@test.com" 0]
       [a_product "p1" "Anker PowerCore" "Chargers" 1000 1 4.5 true]
       [].

Definition request_1 : Prog OrderResponse.t :=
  post_orders (Payload (Some "u1")) "o1" (one_item_cart 1 0).

Definition request_2 : Prog OrderResponse.t :=
  post_orders (Payload (Some "u2")) "o2" (one_item_cart 1 0).

(** Each request authenticates and passes the stock check before either
    one writes. *)
Definition both_check_first : list bool := [true; true; false; false].

(** The ids of the users holding the admin role. *)
Definition admin_ids (db : DB) : list string :=
  map (fun d => User.id (UserDoc.user d))
    (filter (fun d => match User.role (UserDoc.user d) with
                      | ADMIN => true
                      | USER => false
                      end)
       (users db)).

(** The orders of a user that the recommendation route looks at. *)
Definition history (db : DB) (uid : string) : list Order.t :=
  to_list 50 (filter (order_of_user uid) (orders db)).

(** [c] is the category of a product that an item of the user's history
    resolves to. *)
Definition purchased_category (db : DB) (uid : string) (c : string) : Prop :=
  exists o item p,
    In o (history db uid) /\
    In item (Order.items o) /\
    find_one (product_has_id (OrderItem.product_id item)) (products db)
    = Some p /\
    Product.category p = c.

(** A shop whose only user is an administrator. *)
Definition admin_shop : DB :=
  mkDB [UserDoc.mk
          {| User.id := "a1"; User.email := "admin@test.com";
             User.name := "Admin"; User.phone := None; User.address := None;
             User.role := ADMIN; User.loyalty_points := 0;
             User.loyalty_tier := BRONZE; User.total_spent := 0%Q;
             User.is_active := true |} "hash"]
       [power_bank] [].

Definition a_new_product : ProductCreate.t :=
  ProductCreate.mk "Sony WH-1000XM5" "Headphones" 29990 "Sony" "Headphones"
    "" 30 24.

(** A shop with one earlier order of its customer. *)
Definition shop_with_order : DB :=
  mkDB [a_user "u1" "u1@test.com" 100]
       [power_bank;
        a_product "p2" "Charger" "Chargers" 500 10 4.9 true;
        a_product "p3" "Headphones" "Headphones" 29990 30 5 true]
       [Order.create "o0" "u1" [OrderItem.mk "p1" "Anker PowerCore" 1000 1 1000]
          1000 0 0 10 "1 Main Street"].

(** * Properties *)

(** ** Arithmetic helpers *)

Lemma Qle_bool_false (a b : Q) : Qle_bool a b = false <-> (b < a)%Q.
Proof.
  split; intro H.
  - apply Qnot_le_lt. intro Hle. apply Qle_bool_iff in Hle. congruence.
  - destruct (Qle_bool a b) eqn:E; [|reflexivity].
    apply Qle_bool_iff in E. exfalso. eapply Qlt_not_le; eauto.
Qed.

Lemma Qltb_true (a b : Q) : Qltb a b = true <-> (a < b)%Q.
Proof.
  unfold Qltb. rewrite negb_true_iff. apply Qle_bool_false.
Qed.

Lemma Qltb_false (a b : Q) : Qltb a b = false <-> (b <= a)%Q.
Proof.
  unfold Qltb. rewrite negb_false_iff. apply Qle_bool_iff.
Qed.

(** Turn every boolean comparison on [Q] met in the goal into a case
    split with the order fact in the context. *)
Ltac q_cases :=
  repeat match goal with
  | |- context [Qle_bool ?a ?b] =>
      let E := fresh "E" in
      destruct (Qle_bool a b) eqn:E;
      [apply Qle_bool_iff in E | apply Qle_bool_false in E]
  | |- context [Qltb ?a ?b] =>
      let E := fresh "E" in
      destruct (Qltb a b) eqn:E;
      [apply Qltb_true in E | apply Qltb_false in E]
  end.

Lemma py_min_spec (a b : Z) : py_min a b = Z.min a b.
Proof. unfold py_min. destruct (Z.ltb_spec b a); lia. Qed.




(** ** Sequential execution *)

Lemma run_bind {A B : Type} (p : Prog A) (f : A -> Prog B) (db : DB) :
  run (bind p f) db =
  match run p db with
  | (db1, inr a) => run (f a) db1
  | (db1, inl e) => (db1, inl e)
  end.
Proof.
  revert db. induction p as [a | e | op k IH]; intro db; simpl; try reflexivity.
  destruct (exec op db) as [db1 r]. apply IH.
Qed.

(** [run] is [step] repeated: a request that is never interrupted takes
    its atomic steps one after the other. *)
Lemma run_step {A : Type} (p : Prog A) (db : DB) :
  run p db = run (snd (step p db)) (fst (step p db)).
Proof.
  destruct p as [a | e | op k]; simpl; try reflexivity.
  destruct (exec op db) as [db1 r]. reflexivity.
Qed.

(** A schedule that only ever resumes the first request is the same as
    serving the two requests one after the other. *)
Lemma run2_first_only {A B : Type} (n : nat) (p : Prog A) (q : Prog B)
    (db : DB) :
  run2 (repeat true n) p q db = run2 [] p q db.
Proof.
  revert p db. induction n as [|n IH]; intros p db; [reflexivity|].
  simpl. destruct (step p db) as [db1 p1] eqn:Hstep.
  rewrite IH. simpl. rewrite (run_step p db), Hstep. reflexivity.
Qed.

(** ** Tier classifier *)

(** C5. The tier of a cumulative spend is platinum iff spend >= 50000,
    gold iff 25000 <= spend < 50000, silver iff 10000 <= spend < 25000 and
    bronze iff spend < 10000; the thresholds are inclusive lower bounds
    (9999, 10000, 24999, 25000, 49999, 50000 map to bronze, silver,
    silver, gold, gold, platinum) and the mapping is monotone in spend. *)
Theorem calculate_loyalty_tier_step_function :
  (forall s : Q,
      (calculate_loyalty_tier s = PLATINUM <-> 50000 <= s)%Q /\
      (calculate_loyalty_tier s = GOLD <-> 25000 <= s /\ s < 50000)%Q /\
      (calculate_loyalty_tier s = SILVER <-> 10000 <= s /\ s < 25000)%Q /\
      (calculate_loyalty_tier s = BRONZE <-> s < 10000)%Q) /\
  (calculate_loyalty_tier 9999 = BRONZE /\
   calculate_loyalty_tier 10000 = SILVER /\
   calculate_loyalty_tier 24999 = SILVER /\
   calculate_loyalty_tier 25000 = GOLD /\
   calculate_loyalty_tier 49999 = GOLD /\
   calculate_loyalty_tier 50000 = PLATINUM) /\
  (forall s1 s2 : Q,
      (s1 <= s2)%Q ->
      (tier_rank (calculate_loyalty_tier s1)
       <= tier_rank (calculate_loyalty_tier s2))%nat).
Proof.
  split; [|split].
  - intro s. unfold calculate_loyalty_tier. q_cases;
      repeat split; intros; try discriminate; try reflexivity; try lra.
  - repeat split.
  - intros s1 s2 Hle. unfold calculate_loyalty_tier. q_cases;
      simpl; try lia; exfalso; lra.
Qed.

(** The classifier at two ordered concrete spends. *)
Lemma calculate_loyalty_tier_step_function_witness :
  (12000 <= 30000)%Q /\
  (tier_rank (calculate_loyalty_tier 12000)
   <= tier_rank (calculate_loyalty_tier 30000))%nat.
Proof.
  assert (H : (12000 <= 30000)%Q) by (unfold Qle; simpl; lia).
  split; [exact H|].
  exact (proj2 (proj2 calculate_loyalty_tier_step_function)
           12000%Q 30000%Q H).
Defined.

(** ** Settlement: the two loops *)

Lemma sum_totals_app (l1 l2 : list OrderItem.t) :
  (sum_totals (l1 ++ l2) == sum_totals l1 + sum_totals l2)%Q.
Proof.
  induction l1 as [|x l1 IH]; simpl.
  - lra.
  - rewrite IH. lra.
Qed.

Lemma item_ok_not_offending db item line :
  item_ok db item line -> ~ offending db item.
Proof.
  intros (p & Hf & Hq & _). unfold offending. rewrite Hf. lia.
Qed.

Lemma item_error_offending db item e :
  item_error db item e -> offending db item.
Proof.
  unfold offending.
  intros [[Hf _] | (p & Hf & Hq & _)]; rewrite Hf; auto.
Qed.

(** The first loop either prices every item, or stops at the first
    offending one; it never writes. *)
Lemma price_items_cases (items : list CartItem.t) :
  forall (t : Q) (oi : list OrderItem.t) (db : DB),
    (exists lines t',
        Forall2 (item_ok db) items lines /\
        run (price_items items t oi) db = (db, inr (t', oi ++ lines)) /\
        (t' == t + sum_totals lines)%Q)
    \/
    (exists pre item post e,
        items = pre ++ item :: post /\
        (exists lines, Forall2 (item_ok db) pre lines) /\
        item_error db item e /\
        run (price_items items t oi) db = (db, inl e)).
Proof.
  induction items as [|item items IH]; intros t oi db.
  - left. exists [], t. simpl. rewrite app_nil_r.
    split; [constructor|]. split; [reflexivity | lra].
  - simpl. fold (find_active db item).
    destruct (find_active db item) as [product|] eqn:Hf.
    + simpl. destruct (Z.ltb_spec (Product.stock_quantity product)
                                  (CartItem.quantity item)) as [Hlt|Hge].
      * right. exists [], item, items. eexists.
        split; [reflexivity|]. split; [exists []; constructor|].
        split; [|reflexivity].
        right. exists product. auto.
      * set (line := line_of product item).
        specialize (IH (t + OrderItem.total line)%Q (oi ++ [line]) db).
        destruct IH as [(lines & t' & Hall & Hrun & Hsum)
                       |(pre & it & post & e & Heq & [ls Hpre] & Herr & Hrun)].
        -- left. exists (line :: lines), t'. split; [|split].
           ++ constructor; [|assumption]. exists product. auto.
           ++ unfold line, line_of in Hrun. simpl in Hrun. rewrite Hrun.
              rewrite <- app_assoc. reflexivity.
           ++ rewrite Hsum. simpl. lra.
        -- right. exists (item :: pre), it, post, e.
           split; [|split; [|split]].
           ++ rewrite Heq. reflexivity.
           ++ exists (line :: ls). constructor; [|assumption].
              exists product. auto.
           ++ assumption.
           ++ assumption.
    + simpl. right. exists [], item, items. eexists.
      split; [reflexivity|]. split; [exists []; constructor|].
      split; [|reflexivity].
      left. auto.
Qed.

Lemma update_stock_run (items : list CartItem.t) :
  forall db,
    run (update_stock items) db =
    (mkDB (users db) (decrement_all items (products db)) (orders db), inr tt).
Proof.
  induction items as [|item items IH]; intro db; simpl.
  - destruct db; reflexivity.
  - rewrite IH. reflexivity.
Qed.

(** ** Settlement: the whole route *)

(** [create_order] is its first loop followed, when that loop succeeds,
    by three unconditional writes. *)
Lemma create_order_run new_id order_data current_user db :
  run (create_order new_id order_data current_user) db =
  match run (price_items (OrderCreate.items order_data) 0 []) db with
  | (db1, inl e) => (db1, inl e)
  | (db1, inr (subtotal, order_items)) =>
      let s := settlement new_id order_data current_user subtotal
                 order_items in
      (settled_db (User.id current_user) (OrderCreate.items order_data) s db1,
       inr (settlement_response s))
  end.
Proof.
  unfold create_order. rewrite run_bind.
  destruct (run (price_items (OrderCreate.items order_data) 0 []) db)
    as [db1 [e | [subtotal order_items]]]; [reflexivity|].
  unfold settlement, settled_db, settlement_response.
  destruct (apply_discount _ subtotal) as [discount total]. simpl.
  rewrite run_bind, update_stock_run. reflexivity.
Qed.

(** A cart with an offending item is rejected before any write. *)
Lemma create_order_offending new_id order_data current_user db :
  Exists (offending db) (OrderCreate.items order_data) ->
  exists item e,
    In item (OrderCreate.items order_data) /\
    item_error db item e /\
    run (create_order new_id order_data current_user) db = (db, inl e).
Proof.
  intro Hex. rewrite create_order_run.
  destruct (price_items_cases (OrderCreate.items order_data) 0 [] db)
    as [(lines & t' & Hall & Hrun & _)
       |(pre & item & post & e & Heq & _ & Herr & Hrun)].
  - exfalso. apply Exists_exists in Hex. destruct Hex as (item & Hin & Hoff).
    clear Hrun. induction Hall as [|it line its lines Hok Hall IH].
    + inversion Hin.
    + destruct Hin as [->|Hin]; [|auto].
      eapply item_ok_not_offending; eauto.
  - exists item, e. rewrite Hrun, Heq. split; [|split]; auto.
    apply in_or_app. right. left. reflexivity.
Qed.

(** A successful settlement priced every item and performed the writes
    of [settled_db]. *)
Lemma create_order_success new_id order_data current_user db db' resp :
  run (create_order new_id order_data current_user) db = (db', inr resp) ->
  exists lines subtotal,
    Forall2 (item_ok db) (OrderCreate.items order_data) lines /\
    (subtotal == sum_totals lines)%Q /\
    let s := settlement new_id order_data current_user subtotal lines in
    db' = settled_db (User.id current_user) (OrderCreate.items order_data)
            s db /\
    resp = settlement_response s.
Proof.
  rewrite create_order_run.
  destruct (price_items_cases (OrderCreate.items order_data) 0 [] db)
    as [(lines & t' & Hall & Hrun & Hsum)
       |(pre & item & post & e & _ & _ & _ & Hrun)];
    rewrite Hrun; [|discriminate].
  simpl. intro H. inversion H; subst. exists lines, t'.
  split; [assumption|]. split; [lra|]. split; reflexivity.
Qed.


(** ** Settlement: rejection *)

(** C3. A cart with an item whose product id does not resolve to an
    active product, or whose quantity exceeds that product's stock, is
    rejected: the route raises 404 "Product <id> not found" or 400
    "Insufficient stock for <name>" for an offending item of the cart, and
    the database (orders, stock, users) is left exactly as it was. *)
Theorem create_order_offending_cart_rejected :
  forall new_id order_data current_user db,
    Exists (offending db) (OrderCreate.items order_data) ->
    exists item e,
      In item (OrderCreate.items order_data) /\
      offending db item /\
      item_error db item e /\
      run (create_order new_id order_data current_user) db = (db, inl e).
Proof.
  intros new_id order_data current_user db Hex.
  destruct (create_order_offending new_id order_data current_user db Hex)
    as (item & e & Hin & Herr & Hrun).
  exists item, e. split; [assumption|]. split; [|split; assumption].
  eapply item_error_offending; eauto.
Qed.

(** Six power banks are ordered, five are in stock. *)
Lemma create_order_offending_cart_rejected_witness :
  Exists (offending (shop 500)) (OrderCreate.items (one_item_cart 6 200)) /\
  exists item e,
    In item (OrderCreate.items (one_item_cart 6 200)) /\
    offending (shop 500) item /\
    item_error (shop 500) item e /\
    run (create_order "o1" (one_item_cart 6 200) (buyer 500)) (shop 500)
    = (shop 500, inl e).
Proof.
  assert (H : Exists (offending (shop 500))
                (OrderCreate.items (one_item_cart 6 200))).
  { constructor. unfold offending. simpl. lia. }
  split; [exact H|].
  exact (create_order_offending_cart_rejected "o1" (one_item_cart 6 200)
           (buyer 500) (shop 500) H).
Defined.

(** ** Settlement: the order record *)






(** C2. The points redeemed are min(requestedPoints, userPoints) and so
    never exceed the balance; for a request that is not negative this is
    the specified min(max(0, requestedPoints), userPoints), not negative
    when the balance is not.  A negative request is NOT clamped to 0: a
    request for -5 points by a user holding 100 records
    loyaltyPointsUsed = -5 where the specification has 0, and the stored
    balance grows by those 5 points on top of the 10 earned. *)
Theorem create_order_points_redeemed :
  (forall new_id order_data current_user db db' resp,
      run (create_order new_id order_data current_user) db = (db', inr resp) ->
      exists o,
        orders db' = orders db ++ [o] /\
        Order.loyalty_points_used o
        = Z.min (OrderCreate.loyalty_points_to_use order_data)
                (User.loyalty_points current_user) /\
        Order.loyalty_points_used o <= User.loyalty_points current_user /\
        (0 <= OrderCreate.loyalty_points_to_use order_data ->
         Order.loyalty_points_used o
         = Z.min (Z.max 0 (OrderCreate.loyalty_points_to_use order_data))
                 (User.loyalty_points current_user)) /\
        (0 <= OrderCreate.loyalty_points_to_use order_data ->
         0 <= User.loyalty_points current_user ->
         0 <= Order.loyalty_points_used o))
  /\
  (exists db' resp o d,
      run (create_order "o1" (one_item_cart 1 (-5)) (buyer 100)) (shop 100)
      = (db', inr resp) /\
      orders db' = orders (shop 100) ++ [o] /\
      Order.loyalty_points_used o = -5 /\
      Z.min (Z.max 0 (-5)) (User.loyalty_points (buyer 100)) = 0 /\
      Order.loyalty_points_earned o = 10 /\
      find_one (user_has_id "u1") (users db') = Some d /\
      User.loyalty_points (UserDoc.user d) = 115).
Proof.
  split.
  - intros new_id order_data current_user db db' resp Hrun.
    apply create_order_success in Hrun.
    destruct Hrun as (lines & subtotal & _ & _ & Hdb & _).
    eexists. split; [rewrite Hdb; reflexivity|]. simpl.
    rewrite py_min_spec. repeat split; lia.
  - do 4 eexists. split; [vm_compute; reflexivity|].
    repeat split.
Qed.

(** The general part at a request within the balance. *)
Lemma create_order_points_redeemed_witness :
  exists o,
    orders (fst (run (create_order "o1" (one_item_cart 1 200) (buyer 500))
                   (shop 500)))
    = orders (shop 500) ++ [o] /\
    Order.loyalty_points_used o = Z.min 200 500 /\
    0 <= Order.loyalty_points_used o.
Proof.
  destruct (run (create_order "o1" (one_item_cart 1 200) (buyer 500))
              (shop 500)) as [db' [e|resp]] eqn:Hrun.
  - vm_compute in Hrun. discriminate.
  - destruct (proj1 create_order_points_redeemed "o1" (one_item_cart 1 200)
                (buyer 500) (shop 500) db' resp Hrun)
      as (o & Ho & Hused & _ & _ & Hpos).
    exists o. split; [exact Ho|]. split; [exact Hused|].
    apply Hpos; simpl; lia.
Defined.



(** ** Settlement: the user's balance *)

Lemma find_one_some {D : Type} (q : D -> bool) (c : list D) (d : D) :
  find_one q c = Some d -> q d = true.
Proof. intro H. apply find_some in H. tauto. Qed.

(** [update_one] rewrites the document [find_one] returns, as long as the
    rewritten document still matches the query. *)
Lemma find_one_update_one {D : Type} (q : D -> bool) (f : D -> D)
    (c : list D) (d : D) :
  find_one q c = Some d ->
  q (f d) = true ->
  find_one q (update_one q f c) = Some (f d).
Proof.
  unfold find_one. induction c as [|x c IH]; simpl; [discriminate|].
  destruct (q x) eqn:Hq; intros Hfind Hqf.
  - inversion Hfind; subst. simpl. rewrite Hqf. reflexivity.
  - simpl. rewrite Hq. auto.
Qed.

Lemma get_current_user_run (credentials : jwt_decoded) (db : DB) :
  run (get_current_user credentials) db =
  (db,
   match credentials with
   | Payload (Some user_id) =>
       match find_one (user_has_id user_id) (users db) with
       | Some d => inr (UserDoc.user d)
       | None => inl (HTTPException 401 "User not found")
       end
   | _ => inl (HTTPException 401 "Invalid authentication credentials")
   end).
Proof.
  destruct credentials as [|[user_id|]]; simpl; try reflexivity.
  destruct (find_one (user_has_id user_id) (users db)); reflexivity.
Qed.

(** C4. For every successful settlement the user document persisted by
    the route has totalSpent = old totalSpent + total, loyaltyPoints = old
    loyaltyPoints - pointsRedeemed + pointsEarned and loyaltyTier = the
    tier of the new totalSpent, and the response reports that balance and
    tier; a user with 500 points redeeming 200 against a cart of 1000 gets
    total 800, 8 points earned and a balance of 308. *)
Theorem post_orders_user_accounting :
  (forall credentials new_id order_data db db' resp,
      run (post_orders credentials new_id order_data) db = (db', inr resp) ->
      exists user_id old new o,
        credentials = Payload (Some user_id) /\
        find_one (user_has_id user_id) (users db) = Some old /\
        find_one (user_has_id user_id) (users db') = Some new /\
        orders db' = orders db ++ [o] /\
        User.total_spent (UserDoc.user new)
        = (User.total_spent (UserDoc.user old) + Order.total_amount o)%Q /\
        User.loyalty_points (UserDoc.user new)
        = User.loyalty_points (UserDoc.user old)
          - Order.loyalty_points_used o + Order.loyalty_points_earned o /\
        User.loyalty_tier (UserDoc.user new)
        = calculate_loyalty_tier (User.total_spent (UserDoc.user new)) /\
        OrderResponse.new_loyalty_points resp
        = User.loyalty_points (UserDoc.user new) /\
        OrderResponse.new_tier resp = User.loyalty_tier (UserDoc.user new))
  /\
  (exists db' resp new,
      run (post_orders (Payload (Some "u1")) "o1" (one_item_cart 1 200))
          (shop 500)
      = (db', inr resp) /\
      (sum_totals
         (concat (map Order.items (orders db'))) == 1000)%Q /\
      (OrderResponse.total_amount resp == 800)%Q /\
      OrderResponse.loyalty_points_earned resp = 8 /\
      OrderResponse.new_loyalty_points resp = 308 /\
      find_one (user_has_id "u1") (users db') = Some new /\
      User.loyalty_points (UserDoc.user new) = 308).
Proof.
  split.
  - intros credentials new_id order_data db db' resp.
    unfold post_orders. rewrite run_bind, get_current_user_run.
    destruct credentials as [|[user_id|]]; try discriminate.
    destruct (find_one (user_has_id user_id) (users db)) as [old|] eqn:Hold;
      [|discriminate].
    intro Hrun. apply create_order_success in Hrun.
    destruct Hrun as (lines & subtotal & _ & _ & Hdb & Hresp).
    assert (Hid : User.id (UserDoc.user old) = user_id).
    { apply find_one_some in Hold. apply String.eqb_eq in Hold. exact Hold. }
    rewrite Hid in Hdb.
    exists user_id. eexists old, _, _.
    split; [reflexivity|]. split; [exact Hold|].
    split.
    { rewrite Hdb. simpl. apply find_one_update_one; [exact Hold|].
      apply find_one_some in Hold. exact Hold. }
    split; [rewrite Hdb; reflexivity|].
    rewrite Hresp. simpl. repeat split.
  - do 3 eexists. split; [vm_compute; reflexivity|].
    repeat split.
Qed.

(** The general part at the specification's example. *)
Lemma post_orders_user_accounting_witness :
  exists user_id old new o,
    Payload (Some "u1") = Payload (Some user_id) /\
    find_one (user_has_id user_id) (users (shop 500)) = Some old /\
    find_one (user_has_id user_id)
      (users (fst (run (post_orders (Payload (Some "u1")) "o1"
                          (one_item_cart 1 200)) (shop 500))))
    = Some new /\
    orders (fst (run (post_orders (Payload (Some "u1")) "o1"
                        (one_item_cart 1 200)) (shop 500)))
    = orders (shop 500) ++ [o] /\
    User.loyalty_points (UserDoc.user new)
    = User.loyalty_points (UserDoc.user old)
      - Order.loyalty_points_used o + Order.loyalty_points_earned o.
Proof.
  destruct (run (post_orders (Payload (Some "u1")) "o1"
                   (one_item_cart 1 200)) (shop 500))
    as [db' [e|resp]] eqn:Hrun.
  - vm_compute in Hrun. discriminate.
  - destruct (proj1 post_orders_user_accounting (Payload (Some "u1")) "o1"
                (one_item_cart 1 200) (shop 500) db' resp Hrun)
      as (user_id & old & new & o & Hc & Hold & Hnew & Ho & _ & Hpts & _).
    exists user_id, old, new, o. repeat split; assumption.
Defined.

(** ** Registration *)

(** C9. Registering an email address that no user has yet succeeds, and
    the user it stores starts with 100 loyalty points (the welcome bonus)
    in the bronze tier; the response reports that balance and tier. *)
Theorem register_user_welcome_bonus :
  forall hash_password create_jwt_token new_id user_data db,
    find_one (user_has_email (UserCreate.email user_data)) (users db) = None ->
    exists d resp,
      run (register_user hash_password create_jwt_token new_id user_data) db
      = (mkDB (users db ++ [d]) (products db) (orders db), inr resp) /\
      User.email (UserDoc.user d) = UserCreate.email user_data /\
      User.loyalty_points (UserDoc.user d) = 100 /\
      User.loyalty_tier (UserDoc.user d) = BRONZE /\
      RegisterResponse.user_loyalty_points resp = 100 /\
      RegisterResponse.user_loyalty_tier resp = BRONZE.
Proof.
  intros hash_password create_jwt_token new_id user_data db Hnew.
  unfold register_user. simpl. rewrite Hnew. simpl.
  do 2 eexists. split; [reflexivity|]. repeat split.
Qed.

(** A second customer registers in a shop that has one. *)
Lemma register_user_welcome_bonus_witness :
  exists d resp,
    run (register_user (fun password => password)
           (fun user_id email => user_id ++ email)%string "u2"
           (UserCreate.mk "u2@test.com" "Second User" "secret" None))
        (shop 500)
    = (mkDB (users (shop 500) ++ [d]) (products (shop 500))
         (orders (shop 500)), inr resp) /\
    User.email (UserDoc.user d) = "u2@test.com" /\
    User.loyalty_points (UserDoc.user d) = 100 /\
    User.loyalty_tier (UserDoc.user d) = BRONZE /\
    RegisterResponse.user_loyalty_points resp = 100 /\
    RegisterResponse.user_loyalty_tier resp = BRONZE.
Proof.
  apply (register_user_welcome_bonus (fun password => password)
           (fun user_id email => user_id ++ email)%string "u2"
           (UserCreate.mk "u2@test.com" "Second User" "secret" None)
           (shop 500)).
  reflexivity.
Defined.

(** ** Stock after settlement *)

Lemma find_one_update_one_map {D : Type} (q : D -> bool) (f : D -> D)
    (c : list D) :
  (forall d, q d = true -> q (f d) = true) ->
  find_one q (update_one q f c) = option_map f (find_one q c).
Proof.
  intro Hf. unfold find_one. induction c as [|x c IH]; simpl; [reflexivity|].
  destruct (q x) eqn:Hq; simpl.
  - rewrite (Hf x Hq). reflexivity.
  - rewrite Hq. exact IH.
Qed.

Lemma find_one_update_one_other {D : Type} (q1 q2 : D -> bool) (f : D -> D)
    (c : list D) :
  (forall d, q1 d = true -> q2 d = false /\ q2 (f d) = false) ->
  find_one q2 (update_one q1 f c) = find_one q2 c.
Proof.
  intro Hf. unfold find_one. induction c as [|x c IH]; simpl; [reflexivity|].
  destruct (q1 x) eqn:Hq; simpl.
  - destruct (Hf x Hq) as [H1 H2]. rewrite H1, H2. reflexivity.
  - rewrite IH. reflexivity.
Qed.

Lemma inc_stock_0 (p : Product.t) : inc_stock 0 p = p.
Proof. destruct p. unfold inc_stock. simpl. rewrite Z.add_0_r. reflexivity. Qed.

Lemma inc_stock_inc_stock (a b : Z) (p : Product.t) :
  inc_stock a (inc_stock b p) = inc_stock (b + a) p.
Proof. unfold inc_stock. simpl. rewrite Z.add_assoc. reflexivity. Qed.

(** After the last loop, the first document of a product id has lost
    exactly the quantity the cart orders of it. *)
Lemma decrement_all_stock (pid : string) (items : list CartItem.t) :
  forall ps,
    find_one (product_has_id pid) (decrement_all items ps)
    = option_map (inc_stock (- ordered_quantity pid items))
        (find_one (product_has_id pid) ps).
Proof.
  induction items as [|item items IH]; intro ps.
  - simpl. destruct (find_one (product_has_id pid) ps); simpl;
      [rewrite inc_stock_0|]; reflexivity.
  - change (decrement_all (item :: items) ps)
      with (decrement_all items
              (update_one (product_has_id (CartItem.product_id item))
                 (inc_stock (- CartItem.quantity item)) ps)).
    rewrite IH. simpl.
    destruct (String.eqb_spec (CartItem.product_id item) pid) as [->|Hne].
    + rewrite find_one_update_one_map by (intros d Hd; exact Hd).
      destruct (find_one (product_has_id pid) ps); simpl; [|reflexivity].
      rewrite inc_stock_inc_stock. do 2 f_equal. lia.
    + rewrite find_one_update_one_other; [reflexivity|].
      intros d Hd. unfold product_has_id in *. simpl.
      apply String.eqb_eq in Hd.
      assert (H : String.eqb (Product.id d) pid = false).
      { apply String.eqb_neq. congruence. }
      auto.
Qed.





(** ** Recommendations *)

Lemma by_rating_desc_trans (a b c : Product.t) :
  by_rating_desc a b -> by_rating_desc b c -> by_rating_desc a c.
Proof. unfold by_rating_desc. intros. eapply Qle_trans; eauto. Qed.

Lemma insert_by_rating_in (p x : Product.t) (c : list Product.t) :
  In x (insert_by_rating p c) <-> x = p \/ In x c.
Proof.
  induction c as [|p' c IH]; simpl.
  - intuition auto.
  - destruct (Qltb (Product.rating p) (Product.rating p')); simpl.
    + rewrite IH. intuition auto.
    + intuition auto.
Qed.

Lemma sort_rating_desc_in (x : Product.t) (c : list Product.t) :
  In x (sort_rating_desc c) <-> In x c.
Proof.
  unfold sort_rating_desc. induction c as [|p c IH]; simpl.
  - tauto.
  - rewrite insert_by_rating_in, IH. intuition auto.
Qed.

Lemma insert_by_rating_sorted (p : Product.t) (c : list Product.t) :
  StronglySorted by_rating_desc c ->
  StronglySorted by_rating_desc (insert_by_rating p c).
Proof.
  induction 1 as [|p' c Hsorted IH Hall]; simpl.
  - repeat constructor.
  - destruct (Qltb (Product.rating p) (Product.rating p')) eqn:E.
    + apply Qltb_true in E. constructor; [assumption|].
      apply Forall_forall. intros x Hx.
      apply insert_by_rating_in in Hx. destruct Hx as [->|Hx].
      * unfold by_rating_desc. apply Qlt_le_weak. assumption.
      * rewrite Forall_forall in Hall. auto.
    + apply Qltb_false in E. constructor.
      * constructor; assumption.
      * constructor; [exact E|].
        eapply Forall_impl; [|exact Hall].
        intros x Hx. eapply by_rating_desc_trans; eauto.
Qed.

Lemma sort_rating_desc_sorted (c : list Product.t) :
  StronglySorted by_rating_desc (sort_rating_desc c).
Proof.
  unfold sort_rating_desc. induction c as [|p c IH]; simpl.
  - constructor.
  - apply insert_by_rating_sorted. assumption.
Qed.

Lemma firstn_in {A : Type} (n : nat) (l : list A) (x : A) :
  In x (firstn n l) -> In x l.
Proof.
  revert n. induction l as [|a l IH]; intros [|n]; simpl; try tauto.
  intros [->|H]; [left; reflexivity | right; eauto].
Qed.

Lemma firstn_sorted {A : Type} (R : A -> A -> Prop) (n : nat) (l : list A) :
  StronglySorted R l -> StronglySorted R (firstn n l).
Proof.
  intro H. revert n. induction H as [|a l Hsorted IH Hall]; intros [|n]; simpl;
    try constructor.
  - apply IH.
  - rewrite Forall_forall in *. intros x Hx. apply Hall.
    eapply firstn_in; eassumption.
Qed.

(** [limit(n)] followed by [to_list(n)] keeps the first [n] documents. *)
Lemma to_list_cursor_limit {D : Type} (n : Z) (c : list D) :
  0 <= n -> to_list n (cursor_limit n c) = firstn (Z.to_nat n) c.
Proof.
  intro Hn. unfold to_list, cursor_limit.
  destruct (Z.eqb_spec n 0) as [->|Hne]; [reflexivity|].
  replace (Z.abs_nat n) with (Z.to_nat n) by lia.
  rewrite firstn_firstn. f_equal. lia.
Qed.

(** C7. For a user without orders the route returns, for a limit that is
    not negative, the first [limit] active products by descending rating:
    every product returned is an active product of the catalog, ratings
    never increase along the result, and it has at most [limit] elements;
    [limit] is 6 when the request gives none.  A negative limit raises and
    returns nothing. *)
Theorem get_recommendations_new_user :
  forall current_user limit db,
    filter (order_of_user (User.id current_user)) (orders db) = [] ->
    let n := match limit with Some l => l | None => 6 end in
    (0 <= n ->
     exists ps,
       run (get_recommendations current_user limit) db = (db, inr ps) /\
       ps = firstn (Z.to_nat n)
              (sort_rating_desc (filter Product.is_active (products db))) /\
       Forall (fun p => Product.is_active p = true /\ In p (products db)) ps /\
       StronglySorted by_rating_desc ps /\
       Z.of_nat (length ps) <= n) /\
    (n < 0 ->
     exists e, run (get_recommendations current_user limit) db = (db, inl e)).
Proof.
  intros current_user limit db Hnone n.
  unfold get_recommendations, default_limit. fold n. simpl.
  unfold to_list at 1. rewrite Hnone. rewrite firstn_nil.
  unfold top_rated. split; intro Hn.
  - destruct (Z.ltb_spec n 0); [lia|]. simpl.
    rewrite to_list_cursor_limit by assumption.
    eexists. split; [reflexivity|]. split; [reflexivity|].
    split; [|split].
    + apply Forall_forall. intros p Hp. apply firstn_in in Hp.
      apply (proj1 (sort_rating_desc_in _ _)) in Hp.
      apply filter_In in Hp. tauto.
    + apply firstn_sorted, sort_rating_desc_sorted.
    + pose proof (firstn_le_length (Z.to_nat n)
                    (sort_rating_desc
                       (filter Product.is_active (products db)))) as Hlen.
      lia.
  - destruct (Z.ltb_spec n 0); [|lia]. simpl. eexists. reflexivity.
Qed.

Lemma get_recommendations_new_user_witness :
  exists ps,
    run (get_recommendations (buyer 100) (Some 2)) catalog
    = (catalog, inr ps) /\
    map Product.id ps = ["p2"; "p4"] /\
    Forall (fun p => Product.is_active p = true /\ In p (products catalog)) ps /\
    StronglySorted by_rating_desc ps /\
    Z.of_nat (length ps) <= 2.
Proof.
  destruct (get_recommendations_new_user (buyer 100) (Some 2) catalog)
    as [Hsome _]; [reflexivity|].
  destruct Hsome as (ps & Hrun & Hps & Hactive & Hsorted & Hlen); [lia|].
  exists ps. split; [exact Hrun|]. split; [rewrite Hps; reflexivity|].
  split; [exact Hactive|]. split; [exact Hsorted | exact Hlen].
Defined.

(** ** Two settlements in flight *)

(** C8. Run one after the other, two settlements for the last unit end
    with one order, one "Insufficient stock" rejection and a stock of 0;
    but when both pass the stock check before either writes, both succeed,
    two orders are stored and the stock ends at -1. *)
Theorem concurrent_settlements_oversell :
  (exists db' resp,
      run2 [] request_1 request_2 last_unit
      = (db', inr resp,
         inl (HTTPException 400 "Insufficient stock for Anker PowerCore")) /\
      length (orders db') = 1%nat /\
      stock_of "p1" db' = Some 0) /\
  (exists db' resp1 resp2,
      run2 both_check_first request_1 request_2 last_unit
      = (db', inr resp1, inr resp2) /\
      length (orders db') = 2%nat /\
      stock_of "p1" db' = Some (-1)).
Proof.
  split.
  - do 2 eexists. split; [vm_compute; reflexivity|]. split; reflexivity.
  - do 3 eexists. split; [vm_compute; reflexivity|]. split; reflexivity.
Qed.

(** * Further properties of the routes *)

(** ** Settlement: stock *)

(** X1. After a successful settlement the stock of every product id is
    the stock before minus the quantity the cart orders of that id, summed
    over all its items; products the cart does not mention keep their
    stock. *)
Theorem create_order_stock_accounting :
  forall new_id order_data current_user db db' resp,
    run (create_order new_id order_data current_user) db = (db', inr resp) ->
    forall pid,
      stock_of pid db'
      = option_map
          (fun s => s - ordered_quantity pid (OrderCreate.items order_data))
          (stock_of pid db).
Proof.
  intros new_id order_data current_user db db' resp Hrun pid.
  apply create_order_success in Hrun.
  destruct Hrun as (lines & subtotal & _ & _ & Hdb & _).
  rewrite Hdb. unfold stock_of. simpl. rewrite decrement_all_stock.
  destruct (find_one (product_has_id pid) (products db)); simpl;
    [f_equal; lia | reflexivity].
Qed.

Lemma create_order_stock_accounting_witness :
  stock_of "p1"
    (fst (run (create_order "o1" (one_item_cart 2 0) (buyer 100)) (shop 100)))
  = option_map (fun s => s - 2) (stock_of "p1" (shop 100)).
Proof.
  destruct (run (create_order "o1" (one_item_cart 2 0) (buyer 100))
              (shop 100)) as [db' [e|resp]] eqn:Hrun.
  - vm_compute in Hrun. discriminate.
  - exact (create_order_stock_accounting "o1" (one_item_cart 2 0) (buyer 100)
             (shop 100) db' resp Hrun "p1").
Defined.










(** ** Settlement: the order and the accounts *)

(** X4. The order stored by a successful settlement carries the id
    generated for it, the buyer's id, the requested shipping address and
    the states "pending" / "placed"; its lines follow the cart item by
    item, each with the cart's product id and quantity and the name and
    price the active product has at that moment; the response names the
    same order. *)
Theorem create_order_record :
  forall new_id order_data current_user db db' resp,
    run (create_order new_id order_data current_user) db = (db', inr resp) ->
    exists o,
      orders db' = orders db ++ [o] /\
      Order.id o = new_id /\
      OrderResponse.order_id resp = new_id /\
      Order.user_id o = User.id current_user /\
      Order.shipping_address o = OrderCreate.shipping_address order_data /\
      Order.payment_status o = "pending" /\
      Order.order_status o = "placed" /\
      Forall2
        (fun item line =>
           OrderItem.product_id line = CartItem.product_id item /\
           OrderItem.quantity line = CartItem.quantity item /\
           exists product,
             find_active db item = Some product /\
             OrderItem.name line = Product.name product /\
             OrderItem.price line = Product.price product /\
             OrderItem.total line
             = (Product.price product * inject_Z (CartItem.quantity item))%Q)
        (OrderCreate.items order_data) (Order.items o).
Proof.
  intros new_id order_data current_user db db' resp Hrun.
  apply create_order_success in Hrun.
  destruct Hrun as (lines & subtotal & Hall & _ & Hdb & Hresp).
  eexists. split; [rewrite Hdb; reflexivity|].
  rewrite Hresp. simpl. repeat (split; [reflexivity|]).
  eapply Forall2_impl; [|exact Hall].
  intros item line (product & Hfind & _ & ->). simpl.
  split; [reflexivity|]. split; [reflexivity|].
  exists product. repeat split. assumption.
Qed.

Lemma create_order_record_witness :
  exists o,
    orders (fst (run (create_order "o1" (one_item_cart 2 0) (buyer 100))
                   (shop 100)))
    = orders (shop 100) ++ [o] /\
    Order.id o = "o1" /\
    Order.payment_status o = "pending" /\
    length (Order.items o) = 1%nat.
Proof.
  destruct (run (create_order "o1" (one_item_cart 2 0) (buyer 100))
              (shop 100)) as [db' [e|resp]] eqn:Hrun.
  - vm_compute in Hrun. discriminate.
  - destruct (create_order_record "o1" (one_item_cart 2 0) (buyer 100)
                (shop 100) db' resp Hrun)
      as (o & Ho & Hid & _ & _ & _ & Hpay & _ & Hlines).
    exists o. repeat split; try assumption.
    apply Forall2_length in Hlines. rewrite <- Hlines. reflexivity.
Defined.










Lemma update_one_Forall2 {D : Type} (q : D -> bool) (f : D -> D)
    (c : list D) :
  Forall2 (fun d d' => d' = d \/ (q d = true /\ d' = f d))
    c (update_one q f c).
Proof.
  induction c as [|x c IH]; simpl; [constructor|].
  destruct (q x) eqn:Hq; constructor; auto.
  clear. induction c; constructor; auto.
Qed.

Lemma Forall2_compose {A B C : Type} (R : A -> B -> Prop) (S : B -> C -> Prop)
    (T : A -> C -> Prop) (l1 : list A) (l2 : list B) (l3 : list C) :
  (forall a b c, R a b -> S b c -> T a c) ->
  Forall2 R l1 l2 -> Forall2 S l2 l3 -> Forall2 T l1 l3.
Proof.
  intros Hcomp H12. revert l3.
  induction H12 as [|a b l1 l2 Hab H12 IH]; intros l3 H23;
    inversion H23; subst; constructor; eauto.
Qed.

Lemma decrement_all_Forall2 (items : list CartItem.t) :
  forall ps,
    Forall2 (fun p p' => exists delta, p' = inc_stock delta p)
      ps (decrement_all items ps).
Proof.
  induction items as [|item items IH]; intro ps.
  - simpl. induction ps; constructor; auto.
    exists 0. symmetry. apply inc_stock_0.
  - change (decrement_all (item :: items) ps)
      with (decrement_all items
              (update_one (product_has_id (CartItem.product_id item))
                 (inc_stock (- CartItem.quantity item)) ps)).
    eapply Forall2_compose; [|apply update_one_Forall2|apply IH].
    intros a b c [->|[_ ->]] [delta ->].
    + exists delta. reflexivity.
    + eexists. apply inc_stock_inc_stock.
Qed.

(** X7. A successful settlement touches nothing else: every user
    document is left as it was, except the buyer's, of which only
    loyalty_points, total_spent and loyalty_tier are rewritten to the
    values the response reports; every product keeps all its fields but
    the stock; the orders already stored are kept. *)
Theorem create_order_frame :
  forall new_id order_data current_user db db' resp,
    run (create_order new_id order_data current_user) db = (db', inr resp) ->
    Forall2
      (fun d d' =>
         d' = d \/
         (User.id (UserDoc.user d) = User.id current_user /\
          d' = set_loyalty (OrderResponse.new_loyalty_points resp)
                 (User.total_spent current_user
                  + OrderResponse.total_amount resp)%Q
                 (OrderResponse.new_tier resp) d))
      (users db) (users db') /\
    Forall2 (fun p p' => exists delta, p' = inc_stock delta p)
      (products db) (products db') /\
    firstn (length (orders db)) (orders db') = orders db.
Proof.
  intros new_id order_data current_user db db' resp Hrun.
  apply create_order_success in Hrun.
  destruct Hrun as (lines & subtotal & _ & _ & Hdb & Hresp).
  rewrite Hdb, Hresp. simpl. split; [|split].
  - eapply Forall2_impl; [|apply update_one_Forall2].
    intros d d' [->|[Hq ->]]; [left; reflexivity|].
    right. split; [|reflexivity]. apply String.eqb_eq. exact Hq.
  - apply decrement_all_Forall2.
  - unfold insert_one. rewrite firstn_app, Nat.sub_diag, firstn_all.
    simpl. apply app_nil_r.
Qed.

Lemma create_order_frame_witness :
  Forall2 (fun p p' => exists delta, p' = inc_stock delta p)
    (products (shop 500))
    (products (fst (run (create_order "o1" (one_item_cart 1 200) (buyer 500))
                      (shop 500)))).
Proof.
  destruct (run (create_order "o1" (one_item_cart 1 200) (buyer 500))
              (shop 500)) as [db' [e|resp]] eqn:Hrun.
  - vm_compute in Hrun. discriminate.
  - exact (proj1 (proj2 (create_order_frame "o1" (one_item_cart 1 200)
                           (buyer 500) (shop 500) db' resp Hrun))).
Defined.

(** ** Authentication *)

Lemma post_orders_success credentials new_id order_data db db' resp :
  run (post_orders credentials new_id order_data) db = (db', inr resp) ->
  exists user_id old,
    credentials = Payload (Some user_id) /\
    find_one (user_has_id user_id) (users db) = Some old /\
    User.id (UserDoc.user old) = user_id /\
    run (create_order new_id order_data (UserDoc.user old)) db
    = (db', inr resp).
Proof.
  unfold post_orders. rewrite run_bind, get_current_user_run.
  destruct credentials as [|[user_id|]]; try discriminate.
  destruct (find_one (user_has_id user_id) (users db)) as [old|] eqn:Hold;
    [|discriminate].
  intro Hrun. exists user_id, old. repeat split; try assumption.
  apply find_one_some in Hold. apply String.eqb_eq in Hold. exact Hold.
Qed.

(** The identity a request carries, if the database knows it. *)
Lemma get_current_user_none (credentials : jwt_decoded) (db : DB) :
  (forall user_id,
      credentials = Payload (Some user_id) ->
      find_one (user_has_id user_id) (users db) = None) ->
  exists detail,
    run (get_current_user credentials) db
    = (db, inl (HTTPException 401 detail)).
Proof.
  intro Hnone. rewrite get_current_user_run.
  destruct credentials as [|[user_id|]]; try (eexists; reflexivity).
  rewrite (Hnone user_id eq_refl). eexists. reflexivity.
Qed.

(** X8. Without a valid identity (the token does not decode, has no
    user_id, or names a user the database does not have) the protected
    routes POST /orders, POST /products and GET /loyalty/status answer 401
    and leave the database as it was, whatever the request body. *)
Theorem protected_routes_unauthenticated :
  forall credentials db,
    (forall user_id,
        credentials = Payload (Some user_id) ->
        find_one (user_has_id user_id) (users db) = None) ->
    (forall new_id order_data,
        exists detail,
          run (post_orders credentials new_id order_data) db
          = (db, inl (HTTPException 401 detail))) /\
    (forall new_id product_data,
        exists detail,
          create_product credentials new_id product_data db
          = (db, inl (HTTPException 401 detail))) /\
    (exists detail,
        run (loyalty_status credentials) db
        = (db, inl (HTTPException 401 detail))).
Proof.
  intros credentials db Hnone.
  destruct (get_current_user_none credentials db Hnone) as [detail Hrun].
  split; [|split].
  - intros. exists detail. unfold post_orders. rewrite run_bind, Hrun.
    reflexivity.
  - intros. exists detail. unfold create_product, route_bind. rewrite Hrun.
    reflexivity.
  - exists detail. unfold loyalty_status. rewrite run_bind, Hrun. reflexivity.
Qed.

(** A token naming a user the shop does not have. *)
Lemma protected_routes_unauthenticated_witness :
  exists detail,
    run (post_orders (Payload (Some "nobody")) "o1" (one_item_cart 1 0))
        (shop 100)
    = (shop 100, inl (HTTPException 401 detail)).
Proof.
  destruct (protected_routes_unauthenticated (Payload (Some "nobody"))
              (shop 100)) as [Horders _].
  - intros user_id H. inversion H; subst. reflexivity.
  - exact (Horders "o1" (one_item_cart 1 0)).
Defined.

(** X9. The loyalty status read after a successful settlement, with the
    same identity, is what the settlement's response announced: the new
    balance, the new tier and the old spend plus the order total. *)
Theorem loyalty_status_after_settlement :
  forall credentials new_id order_data db db' resp,
    run (post_orders credentials new_id order_data) db = (db', inr resp) ->
    exists status old,
      run (get_current_user credentials) db = (db, inr old) /\
      run (loyalty_status credentials) db' = (db', inr status) /\
      LoyaltyStatus.points status = OrderResponse.new_loyalty_points resp /\
      LoyaltyStatus.tier status = OrderResponse.new_tier resp /\
      LoyaltyStatus.total_spent status
      = (User.total_spent old + OrderResponse.total_amount resp)%Q.
Proof.
  intros credentials new_id order_data db db' resp Hrun.
  apply post_orders_success in Hrun.
  destruct Hrun as (user_id & old & -> & Hold & Hid & Hrun).
  apply create_order_success in Hrun.
  destruct Hrun as (lines & subtotal & _ & _ & Hdb & Hresp).
  rewrite Hid in Hdb.
  assert (Hnew : find_one (user_has_id user_id) (users db')
                 = Some (set_loyalty
                           (OrderResponse.new_loyalty_points resp)
                           (User.total_spent (UserDoc.user old)
                            + OrderResponse.total_amount resp)%Q
                           (OrderResponse.new_tier resp) old)).
  { rewrite Hdb, Hresp. simpl. apply find_one_update_one; [exact Hold|].
    apply find_one_some in Hold. exact Hold. }
  eexists. exists (UserDoc.user old).
  split; [rewrite get_current_user_run, Hold; reflexivity|].
  unfold loyalty_status. rewrite run_bind, get_current_user_run, Hnew.
  simpl. repeat split.
Qed.

Lemma loyalty_status_after_settlement_witness :
  exists status,
    run (loyalty_status (Payload (Some "u1")))
        (fst (run (post_orders (Payload (Some "u1")) "o1"
                     (one_item_cart 1 200)) (shop 500)))
    = (fst (run (post_orders (Payload (Some "u1")) "o1"
                   (one_item_cart 1 200)) (shop 500)), inr status) /\
    LoyaltyStatus.points status = 308.
Proof.
  destruct (run (post_orders (Payload (Some "u1")) "o1"
                   (one_item_cart 1 200)) (shop 500))
    as [db' [e|resp]] eqn:Hrun.
  - vm_compute in Hrun. discriminate.
  - destruct (loyalty_status_after_settlement (Payload (Some "u1")) "o1"
                (one_item_cart 1 200) (shop 500) db' resp Hrun)
      as (status & old & _ & Hstatus & Hpoints & _).
    exists status. split; [exact Hstatus|]. rewrite Hpoints.
    vm_compute in Hrun. inversion Hrun; subst. reflexivity.
Defined.

(** ** Registration and login *)

Lemma find_one_app {D : Type} (q : D -> bool) (c1 c2 : list D) :
  find_one q (c1 ++ c2)
  = match find_one q c1 with
    | Some d => Some d
    | None => find_one q c2
    end.
Proof.
  unfold find_one. induction c1 as [|x c1 IH]; simpl; [reflexivity|].
  destruct (q x); [reflexivity | exact IH].
Qed.




(** X11. Register, then log in.  If [verify_password] accepts the hash of
    a password, a user registered under a new email address can log in
    with that address and password: the login answers with the id given
    at registration, the welcome balance of 100 and the bronze tier; and a
    token carrying that id, when no earlier user has the id, authenticates
    as the new user. *)
Theorem register_then_login :
  forall hash_password verify_password create_jwt_token new_id user_data
         db db' resp,
    (forall password,
        verify_password password (hash_password password) = true) ->
    find_one (user_has_email (UserCreate.email user_data)) (users db) = None ->
    run (register_user hash_password create_jwt_token new_id user_data) db
    = (db', inr resp) ->
    (exists resp',
        run (login_user verify_password create_jwt_token
               (UserLogin.mk (UserCreate.email user_data)
                  (UserCreate.password user_data))) db'
        = (db', inr resp') /\
        RegisterResponse.user_id resp' = new_id /\
        RegisterResponse.user_loyalty_points resp' = 100 /\
        RegisterResponse.user_loyalty_tier resp' = BRONZE) /\
    (find_one (user_has_id new_id) (users db) = None ->
     exists user,
       run (get_current_user (Payload (Some new_id))) db' = (db', inr user) /\
       User.email user = UserCreate.email user_data /\
       User.role user = USER /\
       User.loyalty_points user = 100).
Proof.
  intros hash_password verify_password create_jwt_token new_id user_data
         db db' resp Hverify Hnew Hrun.
  unfold register_user in Hrun. simpl in Hrun. rewrite Hnew in Hrun.
  simpl in Hrun. inversion Hrun; subst. clear Hrun. split.
  - unfold login_user. simpl. unfold insert_one. rewrite find_one_app, Hnew.
    simpl. unfold user_has_email at 1. simpl. rewrite String.eqb_refl.
    rewrite Hverify. simpl. eexists. split; [reflexivity|]. repeat split.
  - intro Hfresh. rewrite get_current_user_run. simpl.
    unfold insert_one. rewrite find_one_app, Hfresh.
    simpl. unfold user_has_id at 1. simpl. rewrite String.eqb_refl.
    eexists. split; [reflexivity|]. repeat split.
Qed.

Lemma register_then_login_witness :
  exists resp',
    run (login_user String.eqb (fun user_id email => user_id ++ email)%string
           (UserLogin.mk "u2@test.com" "secret"))
        (fst (run (register_user (fun password => password)
                     (fun user_id email => user_id ++ email)%string "u2"
                     (UserCreate.mk "u2@test.com" "Second User" "secret" None))
                (shop 500)))
    = (fst (run (register_user (fun password => password)
                   (fun user_id email => user_id ++ email)%string "u2"
                   (UserCreate.mk "u2@test.com" "Second User" "secret" None))
              (shop 500)), inr resp') /\
    RegisterResponse.user_id resp' = "u2" /\
    RegisterResponse.user_loyalty_points resp' = 100.
Proof.
  destruct (run (register_user (fun password => password)
                   (fun user_id email => user_id ++ email)%string "u2"
                   (UserCreate.mk "u2@test.com" "Second User" "secret" None))
              (shop 500)) as [db' [e|resp]] eqn:Hrun.
  - vm_compute in Hrun. discriminate.
  - destruct (register_then_login (fun password => password) String.eqb
                (fun user_id email => user_id ++ email)%string "u2"
                (UserCreate.mk "u2@test.com" "Second User" "secret" None)
                (shop 500) db' resp)
      as [(resp' & Hlogin & Hid & Hpoints & _) _].
    + intro password. apply String.eqb_refl.
    + reflexivity.
    + exact Hrun.
    + exists resp'. repeat split; assumption.
Defined.

(** X12. A login with an email address no user has, and a login with a
    password that [verify_password] rejects, are answered alike: 401
    "Invalid credentials", with the database unchanged. *)
Theorem login_user_rejected :
  forall verify_password create_jwt_token login_data db,
    match find_one (user_has_email (UserLogin.email login_data)) (users db)
    with
    | None => True
    | Some d =>
        verify_password (UserLogin.password login_data) (UserDoc.password d)
        = false
    end ->
    run (login_user verify_password create_jwt_token login_data) db
    = (db, inl (HTTPException 401 "Invalid credentials")).
Proof.
  intros verify_password create_jwt_token login_data db Hbad.
  unfold login_user. simpl.
  destruct (find_one (user_has_email (UserLogin.email login_data)) (users db))
    as [d|]; [|reflexivity].
  rewrite Hbad. reflexivity.
Qed.

Lemma login_user_rejected_witness :
  run (login_user String.eqb (fun user_id email => user_id ++ email)%string
         (UserLogin.mk "u1@test.com" "wrong")) (shop 500)
  = (shop 500, inl (HTTPException 401 "Invalid credentials")) /\
  run (login_user String.eqb (fun user_id email => user_id ++ email)%string
         (UserLogin.mk "nobody@test.com" "hash")) (shop 500)
  = (shop 500, inl (HTTPException 401 "Invalid credentials")).
Proof.
  split.
  - apply (login_user_rejected String.eqb
             (fun user_id email => user_id ++ email)%string
             (UserLogin.mk "u1@test.com" "wrong") (shop 500)).
    reflexivity.
  - apply (login_user_rejected String.eqb
             (fun user_id email => user_id ++ email)%string
             (UserLogin.mk "nobody@test.com" "hash") (shop 500)).
    exact I.
Defined.

(** ** Catalog *)

(** X13. GET /products lists, for a limit that is not negative, the first
    [limit] active products in catalog order, 20 when no limit is given:
    only active products of the catalog, of the requested category when
    one is given and not empty, and at most [limit] of them.  An empty
    category string filters nothing, a negative limit raises, and the
    database is never changed. *)
Theorem get_products_listing :
  forall category limit db,
    let n := match limit with Some l => l | None => 20 end in
    (0 <= n ->
     exists ps,
       get_products category limit db = (db, inr ps) /\
       ps = firstn (Z.to_nat n)
              (filter (products_query category) (products db)) /\
       Forall (fun p =>
                 Product.is_active p = true /\
                 In p (products db) /\
                 forall c, category = Some c -> c <> "" ->
                           Product.category p = c) ps /\
       Z.of_nat (length ps) <= n) /\
    (n < 0 -> exists e, get_products category limit db = (db, inl e)) /\
    get_products (Some "") limit db = get_products None limit db.
Proof.
  intros category limit db n. unfold get_products. fold n.
  split; [|split].
  - intro Hn. destruct (Z.ltb_spec n 0); [lia|].
    rewrite to_list_cursor_limit by assumption.
    eexists. split; [reflexivity|]. split; [reflexivity|]. split.
    + apply Forall_forall. intros p Hp. apply firstn_in in Hp.
      apply filter_In in Hp. destruct Hp as [Hin Hq].
      unfold products_query in Hq. apply andb_prop in Hq.
      destruct Hq as [Hactive Hcat].
      split; [assumption|]. split; [assumption|].
      intros c -> Hc. apply String.eqb_neq in Hc. rewrite Hc in Hcat.
      apply String.eqb_eq. assumption.
    + pose proof (firstn_le_length (Z.to_nat n)
                    (filter (products_query category) (products db))).
      lia.
  - intro Hn. destruct (Z.ltb_spec n 0); [|lia]. eexists. reflexivity.
  - reflexivity.
Qed.

Lemma get_products_listing_witness :
  exists ps,
    get_products (Some "Chargers") (Some 5) catalog = (catalog, inr ps) /\
    map Product.id ps = ["p1"].
Proof.
  destruct (get_products_listing (Some "Chargers") (Some 5) catalog)
    as [Hsome _].
  destruct Hsome as (ps & Hrun & Hps & _); [lia|].
  exists ps. split; [exact Hrun|]. rewrite Hps. reflexivity.
Defined.

(** X14. Create, then read.  An administrator's POST /products stores the
    product under the id generated for it, with rating 0, no reviews and
    active, after the products already there, and changes neither users
    nor orders; when no active product had that id, GET /products/{id}
    then returns exactly that product. *)
Theorem create_product_then_get :
  forall credentials new_id product_data db admin,
    run (get_current_user credentials) db = (db, inr admin) ->
    User.role admin = ADMIN ->
    exists db',
      create_product credentials new_id product_data db
      = (db', inr ("Product created successfully", new_id)) /\
      users db' = users db /\
      orders db' = orders db /\
      products db'
      = products db ++ [Product_of_create new_id product_data] /\
      (Product.rating (Product_of_create new_id product_data) == 0)%Q /\
      Product.is_active (Product_of_create new_id product_data) = true /\
      (find_one (product_active_with_id new_id) (products db) = None ->
       run (get_product new_id) db'
       = (db', inr (Product_of_create new_id product_data))).
Proof.
  intros credentials new_id product_data db admin Hauth Hrole.
  unfold create_product, route_bind. rewrite Hauth, Hrole.
  eexists. split; [reflexivity|]. simpl.
  repeat (split; [reflexivity|]).
  intro Hfresh. unfold get_product. simpl.
  unfold insert_one. rewrite find_one_app, Hfresh. simpl.
  unfold product_active_with_id at 1. simpl. rewrite String.eqb_refl.
  reflexivity.
Qed.

Lemma create_product_then_get_witness :
  exists db',
    create_product (Payload (Some "a1")) "p9" a_new_product admin_shop
    = (db', inr ("Product created successfully", "p9")) /\
    run (get_product "p9") db'
    = (db', inr (Product_of_create "p9" a_new_product)).
Proof.
  destruct (create_product_then_get (Payload (Some "a1")) "p9" a_new_product
              admin_shop
              (UserDoc.user (hd (a_user "" "" 0) (users admin_shop))))
    as (db' & Hcreate & _ & _ & _ & _ & _ & Hget).
  - reflexivity.
  - reflexivity.
  - exists db'. split; [exact Hcreate|]. apply Hget. reflexivity.
Defined.

(** X15. POST /products by a user who is not an administrator is refused
    with 403 "Admin access required" and stores nothing; this is the case
    of every user who has just registered. *)
Theorem create_product_forbidden :
  (forall credentials new_id product_data db user,
      run (get_current_user credentials) db = (db, inr user) ->
      User.role user = USER ->
      create_product credentials new_id product_data db
      = (db, inl (HTTPException 403 "Admin access required"))) /\
  (forall hash_password create_jwt_token user_id user_data db db' resp
          new_id product_data,
      find_one (user_has_id user_id) (users db) = None ->
      run (register_user hash_password create_jwt_token user_id user_data) db
      = (db', inr resp) ->
      create_product (Payload (Some user_id)) new_id product_data db'
      = (db', inl (HTTPException 403 "Admin access required"))).
Proof.
  split.
  - intros credentials new_id product_data db user Hauth Hrole.
    unfold create_product, route_bind. rewrite Hauth, Hrole. reflexivity.
  - intros hash_password create_jwt_token user_id user_data db db' resp
           new_id product_data Hfresh.
    unfold register_user. simpl.
    destruct (find_one (user_has_email (UserCreate.email user_data))
                (users db)); [discriminate|].
    simpl. intro Hrun. inversion Hrun; subst. clear Hrun.
    unfold create_product, route_bind. rewrite get_current_user_run. simpl.
    unfold insert_one. rewrite find_one_app, Hfresh. simpl.
    unfold user_has_id at 1. simpl. rewrite String.eqb_refl. reflexivity.
Qed.

Lemma create_product_forbidden_witness :
  create_product (Payload (Some "u1")) "p9" a_new_product (shop 100)
  = (shop 100, inl (HTTPException 403 "Admin access required")).
Proof.
  apply (proj1 create_product_forbidden (Payload (Some "u1")) "p9"
           a_new_product (shop 100) (buyer 100)); reflexivity.
Defined.

(** ** Payment *)


(** X16. The payment simulator changes nothing but the two status fields
    of orders: users and products are left alone, and every order is
    either untouched or the same order marked "completed" / "confirmed",
    with its id, buyer, lines, amounts and points as they were. *)
Theorem simulate_payment_frame :
  forall random_draw order_id payment_method db,
    let db' := fst (simulate_payment random_draw order_id payment_method db) in
    users db' = users db /\
    products db' = products db /\
    Forall2 (fun o o' => o' = o \/ (Order.id o = order_id /\ o' = set_paid o))
      (orders db) (orders db').
Proof.
  intros random_draw order_id payment_method db. unfold simulate_payment.
  assert (Hsame : Forall2
                    (fun o o' : Order.t =>
                       o' = o \/ (Order.id o = order_id /\ o' = set_paid o))
                    (orders db) (orders db)).
  { induction (orders db); constructor; auto. }
  destruct (find_one (order_has_id order_id) (orders db)); simpl; [|auto].
  destruct (Qltb random_draw 0.95); simpl; [|auto].
  repeat split.
  eapply Forall2_impl; [|apply update_one_Forall2].
  intros o o' [->|[Hq ->]]; [left; reflexivity|].
  right. split; [|reflexivity]. apply String.eqb_eq. exact Hq.
Qed.







(** ** Roles *)

Lemma create_order_failure new_id order_data current_user db db' e :
  run (create_order new_id order_data current_user) db = (db', inl e) ->
  db' = db.
Proof.
  rewrite create_order_run.
  destruct (price_items_cases (OrderCreate.items order_data) 0 [] db)
    as [(lines & t' & _ & Hrun & _)
       |(pre & item & post & e' & _ & _ & _ & Hrun)];
    rewrite Hrun; [discriminate|].
  intro H. inversion H. reflexivity.
Qed.

Lemma post_orders_failure credentials new_id order_data db db' e :
  run (post_orders credentials new_id order_data) db = (db', inl e) ->
  db' = db.
Proof.
  unfold post_orders. rewrite run_bind, get_current_user_run.
  destruct credentials as [|[user_id|]];
    try (intro H; inversion H; reflexivity).
  destruct (find_one (user_has_id user_id) (users db));
    [apply create_order_failure | intro H; inversion H; reflexivity].
Qed.

Lemma admin_ids_set_loyalty (q : UserDoc.t -> bool) (pts : Z) (spent : Q)
    (tier : LoyaltyTier) (us : list UserDoc.t) (ps : list Product.t)
    (os : list Order.t) :
  admin_ids (mkDB (update_one q (set_loyalty pts spent tier) us) ps os)
  = admin_ids (mkDB us ps os).
Proof.
  unfold admin_ids. simpl. induction us as [|d us IH]; simpl; [reflexivity|].
  destruct (q d); simpl.
  - destruct (User.role (UserDoc.user d)); reflexivity.
  - destruct (User.role (UserDoc.user d)); simpl; rewrite IH; reflexivity.
Qed.

(** X20. No route grants the admin role: whatever the request and its
    outcome, the users holding the role are the same after a registration,
    a settlement, a product creation and a payment simulation as before;
    in particular a registration never creates an administrator. *)
Theorem routes_preserve_admins :
  (forall hash_password create_jwt_token new_id user_data db,
      admin_ids
        (fst (run (register_user hash_password create_jwt_token new_id
                     user_data) db))
      = admin_ids db) /\
  (forall credentials new_id order_data db,
      admin_ids (fst (run (post_orders credentials new_id order_data) db))
      = admin_ids db) /\
  (forall credentials new_id product_data db,
      admin_ids (fst (create_product credentials new_id product_data db))
      = admin_ids db) /\
  (forall random_draw order_id payment_method db,
      admin_ids (fst (simulate_payment random_draw order_id payment_method db))
      = admin_ids db).
Proof.
  split; [|split; [|split]].
  - intros. unfold register_user. simpl.
    destruct (find_one (user_has_email (UserCreate.email user_data))
                (users db)); simpl; [reflexivity|].
    unfold admin_ids, insert_one. simpl. rewrite filter_app. simpl.
    rewrite app_nil_r. reflexivity.
  - intros credentials new_id order_data db.
    destruct (run (post_orders credentials new_id order_data) db)
      as [db' [e|resp]] eqn:Hrun; simpl.
    + apply post_orders_failure in Hrun. rewrite Hrun. reflexivity.
    + apply post_orders_success in Hrun.
      destruct Hrun as (user_id & old & _ & _ & _ & Hrun).
      apply create_order_success in Hrun.
      destruct Hrun as (lines & subtotal & _ & _ & Hdb & _).
      rewrite Hdb. unfold settled_db. rewrite admin_ids_set_loyalty.
      reflexivity.
  - intros credentials new_id product_data db.
    unfold create_product, route_bind. rewrite get_current_user_run.
    destruct credentials as [|[user_id|]]; try reflexivity.
    destruct (find_one (user_has_id user_id) (users db)) as [d|];
      [|reflexivity].
    destruct (User.role (UserDoc.user d)); reflexivity.
  - intros random_draw order_id payment_method db.
    unfold simulate_payment.
    destruct (find_one (order_has_id order_id) (orders db)); [|reflexivity].
    destruct (Qltb random_draw 0.95); reflexivity.
Qed.

(** ** Points earned *)



(** ** Recommendations for a returning user *)

Lemma set_add_in (c x : string) (s : list string) :
  In c (set_add x s) <-> c = x \/ In c s.
Proof.
  unfold set_add. destruct (existsb (String.eqb x) s) eqn:E.
  - split; [auto|]. intros [->|H]; [|exact H].
    apply existsb_exists in E. destruct E as (y & Hy & Heq).
    apply String.eqb_eq in Heq. subst. exact Hy.
  - rewrite in_app_iff. simpl. intuition auto.
Qed.

Lemma item_categories_run (db : DB) (items : list OrderItem.t) :
  forall cats,
    exists cats',
      run (item_categories items cats) db = (db, inr cats') /\
      forall c,
        In c cats' <->
        In c cats \/
        exists item p,
          In item items /\
          find_one (product_has_id (OrderItem.product_id item)) (products db)
          = Some p /\
          Product.category p = c.
Proof.
  induction items as [|item items IH]; intro cats.
  - exists cats. split; [reflexivity|]. intro c. split; [auto|].
    intros [H|(item & p & [] & _)]. exact H.
  - simpl.
    destruct (find_one (product_has_id (OrderItem.product_id item))
                (products db)) as [p|] eqn:Hfind; simpl.
    + destruct (IH (set_add (Product.category p) cats)) as (cats' & Hrun & Hin).
      exists cats'. split; [exact Hrun|]. intro c. rewrite Hin, set_add_in.
      split.
      * intros [[->|H]|(it & q & Hit & Hq & Hc)]; auto.
        -- right. exists item, p. auto.
        -- right. exists it, q. auto.
      * intros [H|(it & q & [<-|Hit] & Hq & Hc)]; auto.
        -- left. left. rewrite Hfind in Hq. inversion Hq; subst. reflexivity.
        -- right. exists it, q. auto.
    + destruct (IH cats) as (cats' & Hrun & Hin).
      exists cats'. split; [exact Hrun|]. intro c. rewrite Hin.
      split.
      * intros [H|(it & q & Hit & Hq & Hc)]; auto.
        right. exists it, q. auto.
      * intros [H|(it & q & [<-|Hit] & Hq & Hc)]; auto.
        -- rewrite Hfind in Hq. discriminate.
        -- right. exists it, q. auto.
Qed.

Lemma order_categories_run (db : DB) (os : list Order.t) :
  forall cats,
    exists cats',
      run (order_categories os cats) db = (db, inr cats') /\
      forall c,
        In c cats' <->
        In c cats \/
        exists o item p,
          In o os /\ In item (Order.items o) /\
          find_one (product_has_id (OrderItem.product_id item)) (products db)
          = Some p /\
          Product.category p = c.
Proof.
  induction os as [|o os IH]; intro cats.
  - exists cats. split; [reflexivity|]. intro c. split; [auto|].
    intros [H|(o & item & p & [] & _)]. exact H.
  - simpl. rewrite run_bind.
    destruct (item_categories_run db (Order.items o) cats)
      as (cats1 & Hrun1 & Hin1).
    rewrite Hrun1.
    destruct (IH cats1) as (cats' & Hrun & Hin).
    exists cats'. split; [exact Hrun|]. intro c. rewrite Hin, Hin1.
    split.
    + intros [[H|(item & p & Hitem & Hp & Hc)]
             |(o' & item & p & Ho' & Hitem & Hp & Hc)]; auto.
      * right. exists o, item, p. auto.
      * right. exists o', item, p. auto.
    + intros [H|(o' & item & p & [<-|Ho'] & Hitem & Hp & Hc)]; auto.
      * left. right. exists item, p. auto.
      * right. exists o', item, p. auto.
Qed.

(** X22. GET /recommendations for any user and a limit that is not
    negative (6 when absent) returns the first [limit] active products by
    descending rating among those whose category is the category of a
    product bought before, where "bought before" means: an item of one of
    the user's first 50 orders whose product id still resolves in the
    catalog, active or not.  When nothing bought resolves, it returns the
    first [limit] active products by rating.  The database is not changed.
    A negative limit raises. *)
Theorem get_recommendations_by_history :
  forall current_user limit db,
    let n := match limit with Some l => l | None => 6 end in
    let uid := User.id current_user in
    (0 <= n ->
     exists cats ps,
       (forall c, In c cats <-> purchased_category db uid c) /\
       run (get_recommendations current_user limit) db = (db, inr ps) /\
       ps = firstn (Z.to_nat n)
              (sort_rating_desc
                 (filter match cats with
                         | [] => Product.is_active
                         | _ :: _ => product_active_in cats
                         end
                    (products db))) /\
       Forall (fun p => Product.is_active p = true /\ In p (products db)) ps /\
       ((exists c, purchased_category db uid c) ->
        Forall (fun p => purchased_category db uid (Product.category p)) ps) /\
       StronglySorted by_rating_desc ps /\
       Z.of_nat (length ps) <= n) /\
    (n < 0 ->
     exists e, run (get_recommendations current_user limit) db = (db, inl e)).
Proof.
  intros current_user limit db n uid.
  unfold get_recommendations, default_limit. fold n. fold uid.
  simpl. fold (history db uid).
  assert (Hcats : exists cats,
             (forall c, In c cats <-> purchased_category db uid c) /\
             match history db uid with
             | [] => cats = []
             | os => run (order_categories os []) db = (db, inr cats)
             end).
  { unfold purchased_category.
    destruct (order_categories_run db (history db uid) [])
      as (cats & Hrun & Hin).
    destruct (history db uid) as [|o os] eqn:Hh.
    - exists []. split; [|reflexivity]. intro c. split; [intros []|].
      intros (o & item & p & [] & _).
    - exists cats. split; [|exact Hrun]. intro c. rewrite Hin.
      split; [intros [[]|H]; exact H | auto]. }
  destruct Hcats as (cats & Hin & Hrun).
  assert (Hfilter : forall p,
             match cats with
             | [] => Product.is_active
             | _ :: _ => product_active_in cats
             end p = true ->
             Product.is_active p = true /\
             (cats <> [] -> In (Product.category p) cats)).
  { intros p Hp. destruct cats as [|c cats]; [split; [exact Hp | congruence]|].
    unfold product_active_in in Hp. apply andb_prop in Hp.
    destruct Hp as [Hactive Hex]. split; [exact Hactive|]. intros _.
    apply existsb_exists in Hex. destruct Hex as (x & Hx & Heq).
    apply String.eqb_eq in Heq. rewrite Heq. exact Hx. }
  unfold top_rated. split; intro Hn.
  - destruct (Z.ltb_spec n 0) as [|_]; [lia|].
    exists cats. eexists. split; [exact Hin|].
    split; [|split; [reflexivity|]].
    + destruct (history db uid) as [|o os].
      * subst cats. simpl. rewrite to_list_cursor_limit by assumption.
        reflexivity.
      * rewrite run_bind, Hrun.
        destruct cats; simpl; rewrite to_list_cursor_limit by assumption;
          reflexivity.
    + split; [|split; [|split]].
      * apply Forall_forall. intros p Hp. apply firstn_in in Hp.
        apply (proj1 (sort_rating_desc_in _ _)) in Hp.
        apply filter_In in Hp. destruct Hp as [Hp Hq].
        apply Hfilter in Hq. tauto.
      * intros [c Hc]. apply Forall_forall. intros p Hp.
        apply firstn_in in Hp.
        apply (proj1 (sort_rating_desc_in _ _)) in Hp.
        apply filter_In in Hp. destruct Hp as [Hp Hq].
        apply Hfilter in Hq. destruct Hq as [_ Hq].
        apply Hin. apply Hq. apply Hin in Hc. intros ->. exact Hc.
      * apply firstn_sorted, sort_rating_desc_sorted.
      * match goal with
        | |- context [firstn ?k ?l] => pose proof (firstn_le_length k l)
        end.
        lia.
  - destruct (Z.ltb_spec n 0) as [_|]; [|lia].
    destruct (history db uid) as [|o os].
    + eexists. reflexivity.
    + rewrite run_bind, Hrun. destruct cats; eexists; reflexivity.
Qed.

(** The customer bought a charger before: chargers are recommended, best
    rated first; the better rated headphones are not. *)
Lemma get_recommendations_by_history_witness :
  exists ps,
    run (get_recommendations (buyer 100) None) shop_with_order
    = (shop_with_order, inr ps) /\
    map Product.id ps = ["p2"; "p1"].
Proof.
  destruct (get_recommendations_by_history (buyer 100) None shop_with_order)
    as [Hsome _].
  destruct Hsome as (cats & ps & _ & Hrun & _); [lia|].
  exists ps. split; [exact Hrun|].
  vm_compute in Hrun. inversion Hrun; subst. reflexivity.
Defined.

(** ** Startup seeding *)

Section SeedingFacts.
Context {Data Doc : Type}.
Variable has_name : Data -> Doc -> bool.
Variable create : string -> Data -> Doc.
Hypothesis create_has_name :
  forall new_id data, has_name data (create new_id data) = true.




End SeedingFacts.



